(** * scratch-storage: the multi-source asset resolution protocol

    A shallow embedding of [src/ScratchStorage.js] (the coordinator that walks
    its helpers by priority) and of [FirebaseHelper.js] (the remote helper that
    walks its registered stores), with the properties of the load and store
    chains proved over it.

    Promises are represented by the state they eventually settle in; a chain
    of [then]/[catch] handlers is a function of those states.  Everything a
    call does besides returning (console warnings, storage requests) is
    collected in an event list, in the order in which it happens. *)

From Stdlib Require Import ZArith List String Bool Lia Sorted Permutation.
Import ListNotations.

Local Open Scope string_scope.
Local Open Scope list_scope.

(* ===================================================================== *)
(** ** JavaScript values and promises *)
(* ===================================================================== *)

Module Js.

(** A value that is a string, [null] or [undefined]: the optional
    [assetId] and [dataFormat] parameters. *)
Inductive MaybeString :=
| Undefined
| Null
| Str (s : string).

(** The two properties of an [AssetType] that the helpers read. *)
Record AssetType := {
  name : string;
  runtimeFormat : string
}.

(** The fields of an [Asset]; [V] is the type of the payload. *)
Record AssetOf (V : Type) := {
  assetType : AssetType;
  assetId : MaybeString;
  dataFormat : MaybeString;
  data : V
}.
Arguments assetType {V} _.
Arguments assetId {V} _.
Arguments dataFormat {V} _.
Arguments data {V} _.

#[local] Set Warnings "-register-all".

Inductive Value :=
| VUndefined
| VNull
| VBool (b : bool)
| VNum (n : Z)
| VStr (s : string)
| VBuffer (bytes : list Byte.byte)
| VError (message : string)          (* new Error(message) *)
| VTypeError                         (* a TypeError raised by the engine *)
| VFunction (id : string)            (* a function object *)
| VArray (items : list Value)
| VObject (props : list (string * Value))
| VAsset (a : AssetOf Value).

Definition Asset := AssetOf Value.
Definition Buffer := list Byte.byte.

(** ToBoolean.  Objects (buffers, errors, arrays, even empty ones) are
    truthy. *)
Definition truthy (v : Value) : bool :=
  match v with
  | VUndefined | VNull => false
  | VBool b => b
  | VNum n => negb (n =? 0)%Z
  | VStr s => negb (s =? "")
  | _ => true
  end.

Definition of_maybe (m : MaybeString) : Value :=
  match m with
  | Undefined => VUndefined
  | Null => VNull
  | Str s => VStr s
  end.

(** [a && b] and [a || b] return one of their operands. *)
Definition js_and (a b : Value) : Value := if truthy a then b else a.
Definition js_or (a b : Value) : Value := if truthy a then a else b.

(** A value interpolated in a template literal. *)
Definition toString (m : MaybeString) : string :=
  match m with
  | Undefined => "undefined"
  | Null => "null"
  | Str s => s
  end.

(** [array.indexOf(x)] on an array of strings: the first index holding [x],
    or -1. *)
Fixpoint indexOf_from (l : list string) (x : string) (i : Z) : Z :=
  match l with
  | [] => (-1)%Z
  | y :: l' => if y =? x then i else indexOf_from l' x (i + 1)%Z
  end.

Definition indexOf (l : list string) (x : string) : Z := indexOf_from l x 0%Z.

(** [array[0]]. *)
Definition first {A : Type} (l : list A) : option A :=
  match l with
  | [] => None
  | x :: _ => Some x
  end.

(** [body.id]: [None] when the access throws (on [null] and [undefined]),
    otherwise the property or [undefined]. *)
Fixpoint lookup_prop (props : list (string * Value)) (key : string) : Value :=
  match props with
  | [] => VUndefined
  | (k, v) :: props' => if k =? key then v else lookup_prop props' key
  end.

Definition get_prop (v : Value) (key : string) : option Value :=
  match v with
  | VUndefined | VNull => None
  | VObject props => Some (lookup_prop props key)
  | _ => Some VUndefined
  end.

(** The state a promise settles in, if it ever does. *)
Inductive Settle :=
| Fulfilled (v : Value)
| Rejected (reason : Value)
| Pending.

(** What a helper's [load] or [store] hands back to its caller. *)
Inductive Return :=
| RetNull
| RetUndefined
| RetPromise (p : Settle).

(** What a call of a helper's [load] does.  The helpers of this repository
    return null, undefined or a promise; a helper handed to [addHelper] is
    any object, and its [load] may as well return something else (a value
    that is neither null nor undefined and has no [catch] method) or
    throw. *)
Inductive Loading :=
| Gave (r : Return)
| GaveOther
| Threw (e : Value).

Coercion Gave : Return >-> Loading.

(** What a function call does: throw, or return a promise. *)
Inductive Outcome :=
| Throws (e : Value)
| Returns (p : Settle).

(** The promise made by [p.catch(handler)] when the handler's own outcome is
    [o]: a handler that throws rejects it, a handler that returns a promise
    is followed. *)
Definition adopt (o : Outcome) : Settle :=
  match o with
  | Throws e => Rejected e
  | Returns p => p
  end.

(** A storage reference made by [ref(storageReference, path)]. *)
Definition StorageReference := string.

Record StorageRef := {
  root : StorageReference;
  child : MaybeString
}.

Definition ref (r : StorageReference) (path : MaybeString) : StorageRef :=
  {| root := r; child := path |}.

Inductive Event :=
| Warn (msg : string)
| GetBytes (r : StorageRef)
| UploadBytes (r : StorageRef) (data : Buffer).

Definition is_network (e : Event) : bool :=
  match e with
  | Warn _ => false
  | GetBytes _ | UploadBytes _ _ => true
  end.

Definition network_calls (l : list Event) : list Event := filter is_network l.

(** [errors.push(err)] under [if (err)]. *)
Definition track (errors : list Value) (err : Value) : list Value :=
  if truthy err then errors ++ [err] else errors.

(** [dataFormat || assetType.runtimeFormat]. *)
Definition defaultFormat (dataFormat : MaybeString) (t : AssetType) : MaybeString :=
  if truthy (of_maybe dataFormat) then dataFormat else Str (runtimeFormat t).

End Js.

Import Js.

(* ===================================================================== *)
(** ** FirebaseHelper *)
(* ===================================================================== *)

Module FirebaseHelper.

(** A registered store.  [create] and [update] are the properties that
    [store] reads; a record built by [addStore] has neither, so both read
    as [undefined]. *)
Record StoreRecord := {
  types : list string;
  storageReference : StorageReference;
  create : Value;
  update : Value
}.

Record t := {
  stores : list StoreRecord
}.

(** [new FirebaseHelper(parent)]. *)
Definition new : t := {| stores := [] |}.

Definition addStore (this : t) (assetTypes : list AssetType)
  (firebaseStorageReference : StorageReference) : t :=
  {| stores := stores this ++
       [ {| types := map name assetTypes;
            storageReference := firebaseStorageReference;
            create := VUndefined;
            update := VUndefined |} ] |}.

(** A record with neither capability. *)
Definition no_capability (s : StoreRecord) : Prop :=
  create s = VUndefined /\ update s = VUndefined.

(** The helper after a sequence of [addStore] calls on a new one. *)
Definition registered (calls : list (list AssetType * StorageReference)) : t :=
  fold_left (fun this call => addStore this (fst call) (snd call)) calls new.

(** Modelled from the spec: the [Asset] constructor and [Asset.setData]
    ([Asset.js] is not part of the sources).  An asset is constructed empty,
    with its payload pending, and [setData] attaches the payload. *)
Definition newAsset (t : AssetType) (id fmt : MaybeString) : Asset :=
  {| assetType := t; assetId := id; dataFormat := fmt; data := VUndefined |}.

Definition setData (a : Asset) (buffer : Value) : Asset :=
  {| assetType := assetType a; assetId := assetId a;
     dataFormat := dataFormat a; data := buffer |}.

(** The read that [load] issues against a store. *)
Definition fetch (assetId dataFormat : MaybeString) (s : StoreRecord) : Event :=
  GetBytes (ref (storageReference s)
                (Str (toString assetId ++ "." ++ toString dataFormat)%string)).

Definition warnProject : Event := Warn "Project loading is not supported yet".
Definition warnNotFound : Event := Warn "Asset not found in Firebase storage".

(** The run of one [load]: the value returned to the caller, the events in
    the order they happen (those of the detached continuation included), the
    final state of the asset object, and the promises made by
    [getBytes(...).then(...)], which nobody holds, in creation order. *)
Record LoadRun := {
  returned : Return;
  events : list Event;
  asset : Asset;
  detached : list Settle
}.

Section Load.

(** The storage backend: what [getBytes] settles to for a reference. *)
Variable getBytes : StorageRef -> Settle.

Variable assetId' dataFormat' : MaybeString.

(** [tryNextSource(err)], with [stores] the candidates from [storeIndex]
    on.  With a candidate left the function starts the fetch, attaches the
    continuation, warns and falls off its end: the caller gets
    [undefined], whatever the fetch does later. *)
Fixpoint tryNextSource (stores : list StoreRecord) (errors : list Value)
  (asset : Asset) (err : Value) : LoadRun :=
  let errors := track errors err in
  match stores with
  | [] =>
      {| returned := RetPromise (Rejected (VArray errors));
         events := []; asset := asset; detached := [] |}
  | store :: rest =>
      let storageRef := storageReference store in
      let assetRef :=
        ref storageRef
          (Str (toString assetId' ++ "." ++ toString dataFormat')%string) in
      match getBytes assetRef with
      | Fulfilled buffer =>
          if truthy buffer then
            let asset := setData asset buffer in
            {| returned := RetUndefined;
               events := [GetBytes assetRef; warnNotFound];
               asset := asset;
               detached := [Fulfilled (VAsset asset)] |}
          else
            let next := tryNextSource rest errors asset VUndefined in
            {| returned := RetUndefined;
               events := GetBytes assetRef :: warnNotFound :: events next;
               asset := FirebaseHelper.asset next;
               detached :=
                 match returned next with
                 | RetPromise p => p
                 | RetNull => Fulfilled VNull
                 | RetUndefined => Fulfilled VUndefined
                 end :: detached next |}
      | Rejected reason =>
          {| returned := RetUndefined;
             events := [GetBytes assetRef; warnNotFound];
             asset := asset;
             detached := [Rejected reason] |}
      | Pending =>
          {| returned := RetUndefined;
             events := [GetBytes assetRef; warnNotFound];
             asset := asset;
             detached := [Pending] |}
      end
  end.

End Load.

Definition candidates (this : t) (assetType : AssetType) : list StoreRecord :=
  filter (fun store => (0 <=? indexOf (types store) (name assetType))%Z)
         (stores this).

Definition load (getBytes : StorageRef -> Settle) (this : t)
  (assetType : AssetType) (assetId dataFormat : MaybeString) : LoadRun :=
  let stores := candidates this assetType in
  let asset := newAsset assetType assetId dataFormat in
  if name assetType =? "Project" then
    {| returned := RetUndefined; events := [warnProject];
       asset := asset; detached := [] |}
  else
    tryNextSource getBytes assetId dataFormat stores [] asset VUndefined.

(** The run of one [store]: the value returned and the events. *)
Record StoreRun := {
  store_returned : Return;
  store_events : list Event
}.

Definition is_create (assetId : MaybeString) : bool :=
  match assetId with
  | Str s => s =? ""
  | Null => true
  | Undefined => true
  end.

(** The filter of [store]:
    [s.types.indexOf(assetType.name) !== -1 &&
     ((create && s.create) || s.update)]. *)
Definition eligible (assetType : AssetType) (create : bool) (s : StoreRecord) : bool :=
  negb (indexOf (types s) (name assetType) =? -1)%Z &&
  truthy (js_or (js_and (VBool create) (FirebaseHelper.create s)) (update s)).

Definition store (uploadBytes : StorageRef -> Buffer -> Settle) (this : t)
  (assetType : AssetType) (dataFormat : MaybeString) (data : Buffer)
  (assetId : MaybeString) : StoreRun :=
  let create := is_create assetId in
  match first (filter (eligible assetType create) (stores this)) with
  | None =>
      {| store_returned := RetPromise (Rejected (VError "No appropriate stores"));
         store_events := [] |}
  | Some store =>
      if name assetType =? "Project" then
        {| store_returned := RetUndefined; store_events := [warnProject] |}
      else
        let storageRef := storageReference store in
        let assetRef := ref storageRef assetId in
        {| store_returned := RetPromise (uploadBytes assetRef data);
           store_events := [UploadBytes assetRef data] |}
  end.


(** The record that [addStore] pushes for its two arguments. *)
Definition record_of (assetTypes : list AssetType)
  (firebaseStorageReference : StorageReference) : StoreRecord :=
  {| types := map name assetTypes;
     storageReference := firebaseStorageReference;
     create := VUndefined;
     update := VUndefined |}.

(** The read of [load] at a store comes back with nothing: [getBytes] is
    fulfilled with a value that fails the test [if (buffer)]. *)
Definition comes_back_empty (getBytes : StorageRef -> Settle)
  (assetId dataFormat : MaybeString) (s : StoreRecord) : bool :=
  match getBytes (ref (storageReference s)
                      (Str (toString assetId ++ "." ++ toString dataFormat)%string)) with
  | Fulfilled buffer => negb (truthy buffer)
  | _ => false
  end.

(** The two events of [tryNextSource] at a store: the read and the warning
    that follows it. *)
Definition visit (assetId dataFormat : MaybeString) (s : StoreRecord)
  : list Event :=
  [fetch assetId dataFormat s; warnNotFound].

End FirebaseHelper.

(* ===================================================================== *)
(** ** ScratchStorage, the coordinator *)
(* ===================================================================== *)

Module ScratchStorage.

(** [array.sort(compare)]: a stable sort; [a] goes before [b] when
    [compare a b] is negative, and elements that compare as equal keep
    their order.  For a comparator that is a difference of integer ranks
    these two conditions fix the result, whatever algorithm the engine
    runs. *)
Fixpoint insert_sorted {A : Type} (compare : A -> A -> Z) (x : A) (l : list A)
  : list A :=
  match l with
  | [] => [x]
  | y :: l' =>
      if (compare x y <=? 0)%Z then x :: y :: l'
      else y :: insert_sorted compare x l'
  end.

Fixpoint sort {A : Type} (compare : A -> A -> Z) (l : list A) : list A :=
  match l with
  | [] => []
  | x :: l' => insert_sorted compare x (sort compare l')
  end.

(** A helper of the coordinator: one of the two it constructs itself, or
    one handed to [addHelper], given by what its [load] returns. *)
Inductive Helper :=
| Builtin
| Firebase
| Custom (id : string)
         (load : AssetType -> MaybeString -> MaybeString -> Loading).

Record HelperEntry := {
  helper : Helper;
  priority : Z
}.

(** The comparator of [addHelper]: [(a, b) => b.priority - a.priority]. *)
Definition byPriority (a b : HelperEntry) : Z := (priority b - priority a)%Z.

(** A function call that completes normally or throws. *)
Inductive Completion :=
| Normal (v : Value)
| Abrupt (e : Value).

(** The outcome of one [load]: what the call does, the helpers whose [load]
    was invoked, in order, and the final content of [errors]. *)
Record LoadResult := {
  outcome : Outcome;
  invoked : list Helper;
  recorded : list Value
}.

(** The outcome of one [store]: the promise returned, the cache of the
    built-in helper afterwards, and the events. *)
Record StoreResult (Cache : Type) := {
  promise : Settle;
  cache : Cache;
  store_events : list Event
}.
Arguments promise {Cache} _.
Arguments cache {Cache} _.
Arguments store_events {Cache} _.

Section Coordinator.

(** [BuiltinHelper.js] is not part of the sources: the state of the
    built-in helper and its two methods are parameters. *)
Variable Cache : Type.
Variable builtin_load :
  Cache -> AssetType -> MaybeString -> MaybeString -> Loading.
Variable _store :
  Cache -> AssetType -> MaybeString -> Buffer -> Value -> Completion * Cache.

(** The storage backend. *)
Variable getBytes : StorageRef -> Settle.
Variable uploadBytes : StorageRef -> Buffer -> Settle.

Record t := {
  builtinHelper : Cache;
  firebaseHelper : FirebaseHelper.t;
  _helpers : list HelperEntry
}.

(** [new ScratchStorage()]; [defaultAssets] is the built-in helper after
    [registerDefaultAssets]. *)
Definition new (defaultAssets : Cache) : t :=
  {| builtinHelper := defaultAssets;
     firebaseHelper := FirebaseHelper.new;
     _helpers := [ {| helper := Builtin; priority := 100 |};
                   {| helper := Firebase; priority := -100 |} ] |}.

Definition addHelper (this : t) (h : Helper) (prio : option Z) : t :=
  let priority' := match prio with Some p => p | None => 0%Z end in
  {| builtinHelper := builtinHelper this;
     firebaseHelper := firebaseHelper this;
     _helpers :=
       sort byPriority
            (_helpers this ++ [ {| helper := h; priority := priority' |} ]) |}.

Definition addFirebaseStore (this : t) (types : list AssetType)
  (firebaseStorage : StorageReference) : t :=
  {| builtinHelper := builtinHelper this;
     firebaseHelper :=
       FirebaseHelper.addStore (firebaseHelper this) types firebaseStorage;
     _helpers := _helpers this |}.

(** [helper.load(assetType, assetId, dataFormat)]. *)
Definition helper_load (this : t) (h : Helper) (assetType : AssetType)
  (assetId dataFormat : MaybeString) : Loading :=
  match h with
  | Builtin => builtin_load (builtinHelper this) assetType assetId dataFormat
  | Firebase =>
      Gave (FirebaseHelper.returned
              (FirebaseHelper.load getBytes (firebaseHelper this)
                 assetType assetId dataFormat))
  | Custom _ f => f assetType assetId dataFormat
  end.

Section Load.

Variable this : t.
Variable assetType : AssetType.
Variable assetId dataFormat : MaybeString.

(** [tryNextHelper(err)], with [helpers] the helpers from [helperIndex]
    on.  A helper that returns [null] is skipped by a direct call; a
    helper that returns a promise gets [tryNextHelper] as its rejection
    handler only; anything else has no [catch] to call, which is a
    TypeError.  Nothing catches what [helper.load] itself throws. *)
Fixpoint tryNextHelper (helpers : list Helper) (errors : list Value)
  (err : Value) : LoadResult :=
  let errors := track errors err in
  match helpers with
  | h :: rest =>
      match helper_load this h assetType assetId dataFormat with
      | Gave RetNull =>
          let next := tryNextHelper rest errors VUndefined in
          {| outcome := outcome next;
             invoked := h :: invoked next;
             recorded := recorded next |}
      | Gave RetUndefined | GaveOther =>
          {| outcome := Throws VTypeError;
             invoked := [h];
             recorded := errors |}
      | Gave (RetPromise (Fulfilled v)) =>
          {| outcome := Returns (Fulfilled v);
             invoked := [h];
             recorded := errors |}
      | Gave (RetPromise (Rejected reason)) =>
          let next := tryNextHelper rest errors reason in
          {| outcome := Returns (adopt (outcome next));
             invoked := h :: invoked next;
             recorded := recorded next |}
      | Gave (RetPromise Pending) =>
          {| outcome := Returns Pending;
             invoked := [h];
             recorded := errors |}
      | Threw e =>
          {| outcome := Throws e;
             invoked := [h];
             recorded := errors |}
      end
  | [] =>
      if (0 <? List.length errors)%nat then
        {| outcome := Returns (Rejected (VArray errors));
           invoked := [];
           recorded := errors |}
      else
        {| outcome := Returns (Fulfilled VNull);
           invoked := [];
           recorded := errors |}
  end.

End Load.

Definition load (this : t) (assetType : AssetType)
  (assetId dataFormat : MaybeString) : LoadResult :=
  let helpers := map helper (_helpers this) in
  let dataFormat := defaultFormat dataFormat assetType in
  tryNextHelper this assetType assetId dataFormat helpers [] VUndefined.

(** [store]: the promise is settled by [resolve(body)] after the built-in
    helper has stored the data under [body.id], or by [reject(error)] with
    whatever the chain was rejected with, an exception thrown in the
    [then] handler included.  A remote helper that returns no promise
    makes the executor throw, which rejects the promise too. *)
Definition store (this : t) (assetType : AssetType)
  (dataFormat : MaybeString) (data : Buffer) (assetId : MaybeString)
  : StoreResult Cache :=
  let dataFormat := defaultFormat dataFormat assetType in
  let remote :=
    FirebaseHelper.store uploadBytes (firebaseHelper this)
      assetType dataFormat data assetId in
  let events := FirebaseHelper.store_events remote in
  let unchanged := builtinHelper this in
  match FirebaseHelper.store_returned remote with
  | RetPromise (Fulfilled body) =>
      match get_prop body "id" with
      | None =>
          {| promise := Rejected VTypeError; cache := unchanged;
             store_events := events |}
      | Some id =>
          match _store (builtinHelper this) assetType dataFormat data id with
          | (Normal _, cache') =>
              {| promise := Fulfilled body; cache := cache';
                 store_events := events |}
          | (Abrupt error, cache') =>
              {| promise := Rejected error; cache := cache';
                 store_events := events |}
          end
      end
  | RetPromise (Rejected error) =>
      {| promise := Rejected error; cache := unchanged;
         store_events := events |}
  | RetPromise Pending =>
      {| promise := Pending; cache := unchanged; store_events := events |}
  | RetNull | RetUndefined =>
      {| promise := Rejected VTypeError; cache := unchanged;
         store_events := events |}
  end.

End Coordinator.

(** The calls that configure a coordinator. *)
Inductive Call :=
| AddHelper (h : Helper) (prio : option Z)
| AddFirebaseStore (types : list AssetType) (firebaseStorage : StorageReference).

Definition configure {Cache : Type} (this : t Cache) (c : Call) : t Cache :=
  match c with
  | AddHelper h prio => addHelper Cache this h prio
  | AddFirebaseStore types r => addFirebaseStore Cache this types r
  end.

(** The helper list is in descending order of priority. *)
Definition descending (l : list HelperEntry) : Prop :=
  StronglySorted (fun a b => (priority b <= priority a)%Z) l.

(** A returned value after which the walk goes on to the next helper: the
    [null] sentinel, or a promise that is rejected. *)
Definition advances (r : Loading) : bool :=
  match r with
  | Gave RetNull => true
  | Gave (RetPromise (Rejected _)) => true
  | _ => false
  end.

(** The rejection reasons that [tryNextHelper] pushes on [errors] for the
    given returned values, in order. *)
Fixpoint rejections (rs : list Loading) : list Value :=
  match rs with
  | [] => []
  | Gave (RetPromise (Rejected reason)) :: rs' => track [] reason ++ rejections rs'
  | _ :: rs' => rejections rs'
  end.

(** The helper list is in strictly descending order of priority: no two
    entries have the same priority. *)
Definition strictly_descending (l : list HelperEntry) : Prop :=
  StronglySorted (fun a b => (priority b < priority a)%Z) l.

(** The entry that [addHelper] pushes for its two arguments. *)
Definition entry_of (h : Helper) (prio : option Z) : HelperEntry :=
  {| helper := h;
     priority := match prio with Some p => p | None => 0%Z end |}.

(** The entries pushed by the [addHelper] calls among [calls], in call
    order. *)
Definition added (calls : list Call) : list HelperEntry :=
  flat_map (fun c => match c with
                     | AddHelper h prio => [entry_of h prio]
                     | AddFirebaseStore _ _ => []
                     end) calls.

(** The store records pushed by the [addFirebaseStore] calls among [calls],
    in call order. *)
Definition registrations (calls : list Call) : list FirebaseHelper.StoreRecord :=
  flat_map (fun c => match c with
                     | AddHelper _ _ => []
                     | AddFirebaseStore types r => [FirebaseHelper.record_of types r]
                     end) calls.

Arguments builtinHelper {Cache} _.
Arguments firebaseHelper {Cache} _.
Arguments _helpers {Cache} _.
Arguments new {Cache} _.
Arguments addHelper {Cache} _ _ _.
Arguments addFirebaseStore {Cache} _ _ _.
Arguments helper_load {Cache} _ _ _ _ _ _ _.
Arguments tryNextHelper {Cache} _ _ _ _ _ _ _ _ _.
Arguments load {Cache} _ _ _ _ _ _.
Arguments store {Cache} _ _ _ _ _ _ _.

End ScratchStorage.

(* ===================================================================== *)
(** ** Concrete inputs *)
(* ===================================================================== *)

Module Fixtures.

Definition ImageVector : AssetType :=
  {| name := "ImageVector"; runtimeFormat := "svg" |}.

Definition Project : AssetType :=
  {| name := "Project"; runtimeFormat := "json" |}.

Definition png : Buffer := [Byte.x50; Byte.x4e; Byte.x47].

Definition bucket : StorageReference := "gs://assets".
Definition mirror : StorageReference := "gs://mirror".

(** A backend where [bucket] holds the asset and every other read fails
    with status 403. *)
Definition getBytes_bucket (r : StorageRef) : Settle :=
  if root r =? bucket then Fulfilled (VBuffer png) else Rejected (VNum 403).

(** A backend where [mirror] holds the asset and [bucket] answers with no
    data. *)
Definition getBytes_mirror (r : StorageRef) : Settle :=
  if root r =? mirror then Fulfilled (VBuffer png) else Fulfilled VNull.

(** A backend where nothing is found. *)
Definition getBytes_none (r : StorageRef) : Settle := Fulfilled VNull.

(** A backend that acknowledges every write with the id ["abc123"]. *)
Definition metadata : Value := VObject [("id", VStr "abc123")].
Definition uploadBytes_ok (r : StorageRef) (d : Buffer) : Settle :=
  Fulfilled metadata.

(** A store record that can update but not create. *)
Definition updateOnly : FirebaseHelper.StoreRecord :=
  {| FirebaseHelper.types := ["ImageVector"];
     FirebaseHelper.storageReference := bucket;
     FirebaseHelper.create := VUndefined;
     FirebaseHelper.update := VFunction "update" |}.

(** A store record that can create and update. *)
Definition readWrite : FirebaseHelper.StoreRecord :=
  {| FirebaseHelper.types := ["ImageVector"; "Project"];
     FirebaseHelper.storageReference := bucket;
     FirebaseHelper.create := VFunction "create";
     FirebaseHelper.update := VFunction "update" |}.

Definition theAsset : Asset :=
  {| assetType := ImageVector; assetId := Str "abc123";
     dataFormat := Str "png"; data := VBuffer png |}.

(** Helpers given by what their [load] returns. *)
Definition skips : ScratchStorage.Helper :=
  ScratchStorage.Custom "skips" (fun _ _ _ => RetNull).
Definition resolvesNull : ScratchStorage.Helper :=
  ScratchStorage.Custom "resolvesNull" (fun _ _ _ => RetPromise (Fulfilled VNull)).
Definition resolvesAsset : ScratchStorage.Helper :=
  ScratchStorage.Custom "resolvesAsset"
    (fun _ _ _ => RetPromise (Fulfilled (VAsset theAsset))).
Definition rejects403 : ScratchStorage.Helper :=
  ScratchStorage.Custom "rejects403" (fun _ _ _ => RetPromise (Rejected (VNum 403))).
Definition rejects500 : ScratchStorage.Helper :=
  ScratchStorage.Custom "rejects500" (fun _ _ _ => RetPromise (Rejected (VNum 500))).

(** A built-in helper with nothing cached: its [load] returns [null], and
    its [_store] either stores or refuses. *)
Definition emptyBuiltin (c : unit) (t : AssetType) (id fmt : MaybeString) : Loading :=
  RetNull.
Definition _store_ok (c : list (Value * Buffer)) (t : AssetType)
  (fmt : MaybeString) (d : Buffer) (id : Value)
  : ScratchStorage.Completion * list (Value * Buffer) :=
  (ScratchStorage.Normal id, (id, d) :: c).
Definition _store_throws (c : list (Value * Buffer)) (t : AssetType)
  (fmt : MaybeString) (d : Buffer) (id : Value)
  : ScratchStorage.Completion * list (Value * Buffer) :=
  (ScratchStorage.Abrupt (VError "Tried to cache data without an id"), c).

(** A coordinator whose helpers are the given ones, in this order. *)
Definition withHelpers {Cache : Type} (c : Cache)
  (hs : list ScratchStorage.Helper) : ScratchStorage.t Cache :=
  {| ScratchStorage.builtinHelper := c;
     ScratchStorage.firebaseHelper := FirebaseHelper.new;
     ScratchStorage._helpers :=
       map (fun h => {| ScratchStorage.helper := h;
                        ScratchStorage.priority := 0 |}) hs |}.

(** A coordinator whose remote helper has the given stores. *)
Definition withStores {Cache : Type} (c : Cache)
  (ss : list FirebaseHelper.StoreRecord) : ScratchStorage.t Cache :=
  {| ScratchStorage.builtinHelper := c;
     ScratchStorage.firebaseHelper := {| FirebaseHelper.stores := ss |};
     ScratchStorage._helpers := ScratchStorage._helpers (ScratchStorage.new c) |}.

(** Helpers that break the contract of [load]. *)
Definition returnsUndefined : ScratchStorage.Helper :=
  ScratchStorage.Custom "returnsUndefined" (fun _ _ _ => RetUndefined).
Definition rejectsWithNothing : ScratchStorage.Helper :=
  ScratchStorage.Custom "rejectsWithNothing"
    (fun _ _ _ => RetPromise (Rejected VUndefined)).
Definition neverSettles : ScratchStorage.Helper :=
  ScratchStorage.Custom "neverSettles" (fun _ _ _ => RetPromise Pending).
Definition returnsNumber : ScratchStorage.Helper :=
  ScratchStorage.Custom "returnsNumber" (fun _ _ _ => GaveOther).
Definition throwsError : ScratchStorage.Helper :=
  ScratchStorage.Custom "throwsError" (fun _ _ _ => Threw (VError "offline")).

(** A backend whose writes are refused with status 403. *)
Definition uploadBytes_forbidden (r : StorageRef) (d : Buffer) : Settle :=
  Rejected (VNum 403).

End Fixtures.

(* ===================================================================== *)
(** ** Properties of the remote helper *)
(* ===================================================================== *)

Module FirebaseHelperProofs.

Import FirebaseHelper Fixtures.

(** *** Membership in the type list *)

Lemma indexOf_from_spec (l : list string) (x : string) (i : Z) :
  (0 <= i)%Z ->
  (indexOf_from l x i = (-1)%Z /\ ~ In x l) \/
  ((i <= indexOf_from l x i)%Z /\ In x l).
Proof.
  revert i; induction l as [|y l IH]; intros i Hi; simpl.
  - left; split; [reflexivity | tauto].
  - destruct (String.eqb_spec y x) as [->|Hne].
    + right; split; [lia | now left].
    + destruct (IH (i + 1)%Z ltac:(lia)) as [[E N]|[L I]].
      * left; split; [exact E | intros [H|H]; [now apply Hne | now apply N]].
      * right; split; [lia | now right].
Qed.

Lemma indexOf_found (l : list string) (x : string) :
  (0 <=? indexOf l x)%Z = true <-> In x l.
Proof.
  unfold indexOf.
  destruct (indexOf_from_spec l x 0 ltac:(lia)) as [[E N]|[L I]].
  - rewrite E; simpl; split; [discriminate | tauto].
  - split; [tauto | intros _; now apply Z.leb_le].
Qed.

Lemma indexOf_not_minus_one (l : list string) (x : string) :
  negb (indexOf l x =? -1)%Z = true <-> In x l.
Proof.
  unfold indexOf.
  destruct (indexOf_from_spec l x 0 ltac:(lia)) as [[E N]|[L I]].
  - rewrite E; simpl; split; [discriminate | tauto].
  - split; [tauto | intros _].
    apply negb_true_iff, Z.eqb_neq; lia.
Qed.

(** A record is a candidate of [load] exactly when its type list holds the
    name of the requested type. *)
Lemma candidates_spec (this : t) (assetType : AssetType) (s : StoreRecord) :
  In s (candidates this assetType) <->
  In s (stores this) /\ In (name assetType) (types s).
Proof.
  unfold candidates; rewrite filter_In, indexOf_found; tauto.
Qed.

(** *** The capability filter of [store] *)

Lemma eligible_update_request (assetType : AssetType) (s : StoreRecord) :
  eligible assetType false s = true <->
  In (name assetType) (types s) /\ truthy (update s) = true.
Proof.
  unfold eligible, js_or, js_and; simpl.
  rewrite andb_true_iff, indexOf_not_minus_one; tauto.
Qed.

(** On a create request the update capability is accepted as well. *)
Lemma eligible_create_request (assetType : AssetType) (s : StoreRecord) :
  eligible assetType true s = true <->
  In (name assetType) (types s) /\
  (truthy (create s) = true \/ truthy (update s) = true).
Proof.
  unfold eligible, js_or, js_and; simpl.
  rewrite andb_true_iff, indexOf_not_minus_one.
  destruct (truthy (create s)) eqn:Hc.
  - rewrite Hc; intuition.
  - intuition discriminate.
Qed.

Lemma eligible_without_capability (assetType : AssetType) (c : bool)
  (s : StoreRecord) :
  create s = VUndefined -> update s = VUndefined ->
  eligible assetType c s = false.
Proof.
  intros Hc Hu; unfold eligible, js_or, js_and; rewrite Hc, Hu.
  destruct c; simpl; apply andb_false_r.
Qed.

(** With no eligible record the call is rejected and nothing is sent. *)
Lemma store_none_eligible uploadBytes this assetType dataFormat data assetId :
  filter (eligible assetType (is_create assetId)) (stores this) = [] ->
  store uploadBytes this assetType dataFormat data assetId =
  {| store_returned := RetPromise (Rejected (VError "No appropriate stores"));
     store_events := [] |}.
Proof.
  intros H; unfold store; rewrite H; reflexivity.
Qed.

(** X6: When some record is eligible and the type is not Project, the first
    eligible record in registration order, and no other, receives the one
    write: [store] uploads the data to the reference made of that record's
    storage reference and the asset id, and returns the promise of that
    upload as it is. *)
Lemma store_first_eligible uploadBytes this assetType dataFormat data assetId
  (before : list StoreRecord) (s : StoreRecord) (after : list StoreRecord) :
  stores this = before ++ s :: after ->
  Forall (fun r => eligible assetType (is_create assetId) r = false) before ->
  eligible assetType (is_create assetId) s = true ->
  name assetType <> "Project" ->
  store uploadBytes this assetType dataFormat data assetId =
  {| store_returned :=
       RetPromise (uploadBytes (ref (storageReference s) assetId) data);
     store_events := [UploadBytes (ref (storageReference s) assetId) data] |}.
Proof.
  intros Hs Hb He Hp; unfold store; rewrite Hs.
  replace (filter (eligible assetType (is_create assetId)) (before ++ s :: after))
    with (s :: filter (eligible assetType (is_create assetId)) after).
  - simpl. apply String.eqb_neq in Hp; rewrite Hp; reflexivity.
  - rewrite filter_app; simpl; rewrite He.
    replace (filter (eligible assetType (is_create assetId)) before) with (@nil StoreRecord);
      [reflexivity|].
    clear Hs; induction Hb as [|r l Hr _ IH]; simpl; [reflexivity|].
    now rewrite Hr.
Qed.

(** *** Records made by [addStore] *)

Lemma addStore_no_capability this assetTypes r :
  Forall no_capability (stores this) ->
  Forall no_capability (stores (addStore this assetTypes r)).
Proof.
  intros H; unfold addStore; simpl.
  apply Forall_app; split; [exact H|].
  constructor; [split; reflexivity | constructor].
Qed.

Lemma fold_addStore_no_capability calls : forall this,
  Forall no_capability (stores this) ->
  Forall no_capability
    (stores (fold_left (fun h call => addStore h (fst call) (snd call)) calls this)).
Proof.
  induction calls as [|c calls IH]; intros this H; simpl; [exact H|].
  apply IH, addStore_no_capability, H.
Qed.

Lemma registered_no_capability calls :
  Forall no_capability (stores (registered calls)).
Proof.
  apply fold_addStore_no_capability; constructor.
Qed.

Lemma filter_all_false {A : Type} (f : A -> bool) (l : list A) :
  Forall (fun x => f x = false) l -> filter f l = [].
Proof.
  induction 1 as [|x l Hx _ IH]; simpl; [reflexivity|].
  now rewrite Hx.
Qed.

(** C10: [addStore] leaves the create and update capabilities of the record
    unset, so against a helper whose stores were all registered through
    [addStore] every [store] call, whatever its arguments, is rejected with
    the 'No appropriate stores' error and no upload is attempted. *)
Theorem store_after_addStore_only_rejects
  (uploadBytes : StorageRef -> Buffer -> Settle)
  (calls : list (list AssetType * StorageReference))
  (assetType : AssetType) (dataFormat : MaybeString) (data : Buffer)
  (assetId : MaybeString) :
  Forall (fun s => create s = VUndefined /\ update s = VUndefined)
         (stores (registered calls)) /\
  filter (eligible assetType (is_create assetId)) (stores (registered calls)) = [] /\
  store uploadBytes (registered calls) assetType dataFormat data assetId =
  {| store_returned := RetPromise (Rejected (VError "No appropriate stores"));
     store_events := [] |}.
Proof.
  pose proof (registered_no_capability calls) as Hcap.
  assert (Hnone :
    filter (eligible assetType (is_create assetId)) (stores (registered calls)) = []).
  { apply filter_all_false.
    eapply Forall_impl; [|exact Hcap].
    intros s [Hc Hu]; now apply eligible_without_capability. }
  split; [exact Hcap|]. split; [exact Hnone|].
  now apply store_none_eligible.
Qed.

(** *** [load] *)

Section LoadFacts.

Variable getBytes : StorageRef -> Settle.
Variable assetId dataFormat : MaybeString.

(** With a candidate left, [tryNextSource] returns [undefined]; with none
    it returns a promise rejected with the error list. *)
Lemma tryNextSource_returned stores errors asset err :
  returned (tryNextSource getBytes assetId dataFormat stores errors asset err) =
  match stores with
  | [] => RetPromise (Rejected (VArray (track errors err)))
  | _ :: _ => RetUndefined
  end.
Proof.
  destruct stores as [|s rest]; simpl; [reflexivity|].
  destruct (getBytes _) as [buffer| |]; try reflexivity.
  destruct (truthy buffer); reflexivity.
Qed.

Lemma load_returned this assetType :
  name assetType <> "Project" ->
  returned (load getBytes this assetType assetId dataFormat) =
  match candidates this assetType with
  | [] => RetPromise (Rejected (VArray []))
  | _ :: _ => RetUndefined
  end.
Proof.
  intros Hp; unfold load.
  apply String.eqb_neq in Hp; rewrite Hp.
  rewrite tryNextSource_returned; reflexivity.
Qed.

(** The reads are issued in registration order, each one only after the
    one before it has come back empty. *)
Lemma tryNextSource_fetch_order stores : forall errors asset err,
  exists k,
    network_calls
      (events (tryNextSource getBytes assetId dataFormat stores errors asset err)) =
    map (fetch assetId dataFormat) (firstn k stores).
Proof.
  induction stores as [|s rest IH]; intros errors asset err.
  - exists 0%nat; reflexivity.
  - destruct (IH (track errors err) asset VUndefined) as [k Hk].
    cbn [tryNextSource].
    destruct (getBytes _) as [buffer| |];
      try (exists 1%nat; reflexivity).
    destruct (truthy buffer); [exists 1%nat; reflexivity|].
    exists (S k).
    cbn [events network_calls filter is_network warnNotFound firstn map].
    unfold network_calls in Hk; rewrite Hk.
    reflexivity.
Qed.

(** No rejection of a read ever reaches the error list: the list is empty
    whenever the walk runs out of candidates. *)
Lemma tryNextSource_detached stores : forall errors asset err,
  track errors err = [] ->
  Forall (fun p => forall l, p = Rejected (VArray l) ->
                   l = [] \/ exists r, In (GetBytes r)
                     (events (tryNextSource getBytes assetId dataFormat
                                stores errors asset err)) /\
                              getBytes r = Rejected (VArray l))
         (detached (tryNextSource getBytes assetId dataFormat stores errors asset err)).
Proof.
  induction stores as [|s rest IH]; intros errors asset err Ht; simpl.
  - constructor.
  - destruct (getBytes _) as [buffer|reason|] eqn:Hg.
    + destruct (truthy buffer).
      * constructor; [discriminate | constructor].
      * simpl. constructor.
        -- rewrite tryNextSource_returned, Ht.
           destruct rest; [|discriminate].
           intros l [= <-]; now left.
        -- specialize (IH (track errors err) asset VUndefined).
           rewrite Ht in IH |- *. specialize (IH eq_refl).
           eapply Forall_impl; [|exact IH].
           intros p Hp l E. destruct (Hp l E) as [->|[r [Hin Hr]]];
             [now left | right; exists r; split; [now right; right | exact Hr]].
    + constructor; [|constructor].
      intros l [= ->]. right.
      eexists; split; [left; reflexivity | exact Hg].
    + constructor; [discriminate | constructor].
Qed.

End LoadFacts.

(** C3: a remote helper load over its candidate stores, evaluated on four
    backends.  Where the first store holds the bytes the asset is populated,
    but the helper has returned [undefined], not a promise of the asset.
    Where the first store has nothing and the second holds the bytes, the
    second is read after the first and the asset is populated, and again the
    helper has returned [undefined].  Where the first store fails with
    status 403 the failure rejects a promise nobody holds: it is not
    recorded and the second store is never read.  Where both stores have
    nothing, the walk ends in a rejection with an empty error list instead
    of a null result. *)
Theorem load_walk_evaluated :
  (let run := load getBytes_bucket (registered [([ImageVector], bucket)])
                ImageVector (Str "abc123") (Str "png") in
   returned run = RetUndefined /\
   asset run = theAsset /\
   network_calls (events run) = [GetBytes (ref bucket (Str "abc123.png"))] /\
   detached run = [Fulfilled (VAsset theAsset)]) /\
  (let run := load getBytes_mirror
                (registered [([ImageVector], bucket); ([ImageVector], mirror)])
                ImageVector (Str "abc123") (Str "png") in
   returned run = RetUndefined /\
   asset run = theAsset /\
   network_calls (events run) =
     [GetBytes (ref bucket (Str "abc123.png"));
      GetBytes (ref mirror (Str "abc123.png"))] /\
   detached run = [Fulfilled VUndefined; Fulfilled (VAsset theAsset)]) /\
  (let run := load getBytes_bucket
                (registered [([ImageVector], mirror); ([ImageVector], bucket)])
                ImageVector (Str "abc123") (Str "png") in
   returned run = RetUndefined /\
   data (asset run) = VUndefined /\
   network_calls (events run) = [GetBytes (ref mirror (Str "abc123.png"))] /\
   detached run = [Rejected (VNum 403)]) /\
  (let run := load getBytes_none
                (registered [([ImageVector], bucket); ([ImageVector], mirror)])
                ImageVector (Str "abc123") (Str "png") in
   returned run = RetUndefined /\
   data (asset run) = VUndefined /\
   network_calls (events run) =
     [GetBytes (ref bucket (Str "abc123.png"));
      GetBytes (ref mirror (Str "abc123.png"))] /\
   detached run = [Fulfilled VUndefined; Rejected (VArray [])]).
Proof.
  repeat split; reflexivity.
Qed.

(** The filter and the specification's wording part on one kind of record,
    which [addStore] never makes: one with the update capability and
    without the create capability.  On a create request such a record
    passes the filter, by its update capability, and the data is uploaded
    to it. *)
Lemma store_create_request_uses_update_store
  (uploadBytes : StorageRef -> Buffer -> Settle) :
  is_create Undefined = true /\
  truthy (create updateOnly) = false /\
  eligible ImageVector (is_create Undefined) updateOnly = true /\
  store uploadBytes {| stores := [updateOnly] |} ImageVector (Str "svg") png Undefined =
  {| store_returned := RetPromise (uploadBytes (ref bucket Undefined) png);
     store_events := [UploadBytes (ref bucket Undefined) png] |}.
Proof.
  repeat split; reflexivity.
Qed.




(** *** The Project type *)

(** C8, as stated, fails for [store]: with no eligible store a Project
    request returns a rejected promise, not [undefined], and warns of
    nothing. *)
Lemma project_store_without_store_counterexample :
  let run := store uploadBytes_ok new Project (Str "json") png (Str "abc123") in
  name Project = "Project" /\
  store_returned run = RetPromise (Rejected (VError "No appropriate stores")) /\
  store_returned run <> RetUndefined /\
  ~ In warnProject (store_events run).
Proof.
  simpl. repeat split; [discriminate | tauto].
Qed.

(** C8, amended: for the Project type [load] always warns and returns
    [undefined]; [store] does so when a store is eligible and otherwise
    returns the promise rejected with 'No appropriate stores'; in no case
    is a network call issued. *)
Theorem project_requests_issue_no_network_call
  (getBytes : StorageRef -> Settle)
  (uploadBytes : StorageRef -> Buffer -> Settle)
  (this : t) (assetType : AssetType) (assetId dataFormat : MaybeString)
  (data : Buffer) :
  name assetType = "Project" ->
  (returned (load getBytes this assetType assetId dataFormat) = RetUndefined /\
   events (load getBytes this assetType assetId dataFormat) = [warnProject]) /\
  (let run := store uploadBytes this assetType dataFormat data assetId in
   network_calls (store_events run) = [] /\
   (filter (eligible assetType (is_create assetId)) (stores this) <> [] ->
    run = {| store_returned := RetUndefined; store_events := [warnProject] |}) /\
   (filter (eligible assetType (is_create assetId)) (stores this) = [] ->
    run = {| store_returned :=
               RetPromise (Rejected (VError "No appropriate stores"));
             store_events := [] |})).
Proof.
  intros Hp. split.
  - unfold load. rewrite Hp. split; reflexivity.
  - unfold store.
    destruct (filter (eligible assetType (is_create assetId)) (stores this))
      as [|s l]; simpl.
    + split; [reflexivity|]. split; [intros H; now elim H | reflexivity].
    + rewrite Hp; simpl.
      split; [reflexivity|]. split; [reflexivity | discriminate].
Qed.

Lemma project_requests_issue_no_network_call_witness :
  name Project = "Project" /\
  returned (load getBytes_bucket {| stores := [readWrite] |}
              Project (Str "1") (Str "json")) = RetUndefined /\
  network_calls
    (store_events (store uploadBytes_ok {| stores := [readWrite] |}
                     Project (Str "json") png (Str "1"))) = [].
Proof.
  pose proof (project_requests_issue_no_network_call getBytes_bucket
                uploadBytes_ok {| stores := [readWrite] |} Project (Str "1")
                (Str "json") png eq_refl) as [[Hl _] [Hs _]].
  split; [reflexivity | split; [exact Hl | exact Hs]].
Defined.

End FirebaseHelperProofs.

(* ===================================================================== *)
(** ** Properties of the coordinator *)
(* ===================================================================== *)

Module ScratchStorageProofs.

Import ScratchStorage Fixtures.

(** *** The helper list stays sorted *)

Section Sorting.

Lemma insert_sorted_perm (x : HelperEntry) (l : list HelperEntry) :
  Permutation (x :: l) (insert_sorted byPriority x l).
Proof.
  induction l as [|y l IH]; simpl; [reflexivity|].
  destruct (byPriority x y <=? 0)%Z; [reflexivity|].
  rewrite perm_swap; now constructor.
Qed.

Lemma sort_perm (l : list HelperEntry) :
  Permutation l (sort byPriority l).
Proof.
  induction l as [|x l IH]; simpl; [reflexivity|].
  rewrite <- insert_sorted_perm; now constructor.
Qed.

Lemma insert_sorted_descending (x : HelperEntry) (l : list HelperEntry) :
  descending l -> descending (insert_sorted byPriority x l).
Proof.
  unfold descending.
  induction 1 as [|y l Hs IH Hy]; simpl.
  - repeat constructor.
  - destruct (Z.leb_spec (byPriority x y) 0) as [Hle|Hgt];
      unfold byPriority in *.
    + constructor; [now constructor|].
      constructor; [lia|].
      eapply Forall_impl; [|exact Hy]. simpl; intros z Hz; lia.
    + constructor; [exact IH|].
      eapply Permutation_Forall; [apply insert_sorted_perm|].
      constructor; [lia | exact Hy].
Qed.

Lemma sort_descending (l : list HelperEntry) :
  descending (sort byPriority l).
Proof.
  induction l as [|x l IH]; simpl.
  - constructor.
  - now apply insert_sorted_descending.
Qed.

(** A sort that keeps entries of equal priority in their order: an
    entry goes before the first one of lower or equal rank only if it
    was before it already. *)
Lemma insert_sorted_already (x : HelperEntry) (l : list HelperEntry) :
  Forall (fun b => (priority b <= priority x)%Z) l ->
  insert_sorted byPriority x l = x :: l.
Proof.
  destruct 1 as [|y l Hy _]; simpl; [reflexivity|].
  unfold byPriority.
  destruct (Z.leb_spec (priority y - priority x) 0); [reflexivity | lia].
Qed.

Lemma sort_already (l : list HelperEntry) :
  descending l -> sort byPriority l = l.
Proof.
  induction 1 as [|x l Hs IH Hx]; simpl; [reflexivity|].
  rewrite IH. now apply insert_sorted_already.
Qed.

End Sorting.

Lemma new_descending {Cache : Type} (c : Cache) :
  descending (_helpers (new c)).
Proof.
  unfold descending; simpl.
  repeat constructor; simpl; lia.
Qed.

Lemma configure_descending {Cache : Type} (this : t Cache) (c : Call) :
  descending (_helpers this) -> descending (_helpers (configure this c)).
Proof.
  intros H; destruct c as [h prio|types r]; simpl; [|exact H].
  apply sort_descending.
Qed.

Lemma configured_descending {Cache : Type} (calls : list Call) :
  forall this : t Cache,
    descending (_helpers this) ->
    descending (_helpers (fold_left configure calls this)).
Proof.
  induction calls as [|c calls IH]; intros this H; simpl; [exact H|].
  apply IH, configure_descending, H.
Qed.

(** [addHelper] adds one entry and loses none. *)
Lemma addHelper_perm {Cache : Type} (this : t Cache) (h : Helper)
  (prio : option Z) :
  Permutation
    ({| helper := h; priority := match prio with Some p => p | None => 0%Z end |}
       :: _helpers this)
    (_helpers (addHelper this h prio)).
Proof.
  unfold addHelper; simpl.
  rewrite <- sort_perm.
  rewrite Permutation_app_comm; reflexivity.
Qed.

(** *** The walk over the helpers *)

Lemma track_nil_undefined (errors : list Value) :
  track errors VUndefined = errors.
Proof. reflexivity. Qed.

Lemma track_app (errors : list Value) (err : Value) :
  track errors err = errors ++ track [] err.
Proof.
  unfold track; destruct (truthy err); [reflexivity | now rewrite app_nil_r].
Qed.

Section Walk.

Variable Cache : Type.
Variable builtin_load :
  Cache -> AssetType -> MaybeString -> MaybeString -> Loading.
Variable getBytes : StorageRef -> Settle.
Variable this : t Cache.
Variable assetType : AssetType.
Variable assetId dataFormat : MaybeString.

Local Abbreviation ask h :=
  (helper_load builtin_load getBytes this h assetType assetId dataFormat).
Local Abbreviation walk :=
  (tryNextHelper builtin_load getBytes this assetType assetId dataFormat).

(** The walk depends on its two arguments [errors] and [err] only through
    the list that results from tracking [err]. *)
Lemma walk_track helpers errors err :
  walk helpers errors err = walk helpers (track errors err) VUndefined.
Proof.
  destruct helpers; reflexivity.
Qed.

(** The helpers invoked are an initial segment of the list. *)
Lemma walk_invoked_prefix helpers : forall errors err,
  exists rest, helpers = invoked (walk helpers errors err) ++ rest.
Proof.
  induction helpers as [|h hs IH]; intros errors err.
  - exists []; simpl. now destruct (0 <? _)%nat.
  - simpl. destruct (ask h) as [[| |[v|reason|]]| |thrown].
    + destruct (IH (track errors err) VUndefined) as [rest Hr].
      exists rest; simpl; now rewrite <- Hr.
    + exists hs; reflexivity.
    + exists hs; reflexivity.
    + destruct (IH (track errors err) reason) as [rest Hr].
      exists rest; simpl; now rewrite <- Hr.
    + exists hs; reflexivity.
    + exists hs; reflexivity.
    + exists hs; reflexivity.
Qed.

(** Errors are only ever added. *)
Lemma walk_recorded_extends helpers : forall errors err,
  exists more, recorded (walk helpers errors err) = track errors err ++ more.
Proof.
  induction helpers as [|h hs IH]; intros errors err.
  - exists []; simpl. rewrite app_nil_r. now destruct (0 <? _)%nat.
  - simpl. destruct (ask h) as [[| |[v|reason|]]| |thrown];
      try (exists []; simpl; now rewrite app_nil_r).
    + destruct (IH (track errors err) VUndefined) as [more Hm].
      exists more; simpl; exact Hm.
    + destruct (IH (track errors err) reason) as [more Hm].
      exists (track [] reason ++ more); simpl.
      rewrite Hm, (track_app (track errors err) reason).
      now rewrite app_assoc.
Qed.

(** Past helpers that all returned the sentinel or a rejected promise, the
    walk is the walk over the rest, started with the errors they left. *)
Lemma walk_past pre rest : forall errors err,
  Forall (fun h => advances (ask h) = true) pre ->
  let r := walk (pre ++ rest) errors err in
  let next := walk rest (track errors err ++ rejections (map (fun h => ask h) pre))
                   VUndefined in
  invoked r = pre ++ invoked next /\
  recorded r = recorded next /\
  (outcome r = outcome next \/ outcome r = Returns (adopt (outcome next))).
Proof.
  induction pre as [|h pre IH]; intros errors err Hadv.
  - cbn [app map rejections]. rewrite app_nil_r, <- walk_track. tauto.
  - inversion Hadv as [|? ? Hh Hpre]; subst.
    cbn [app map rejections tryNextHelper].
    destruct (ask h) as [[| |[v|reason|]]| |thrown]; try discriminate.
    + destruct (IH (track errors err) VUndefined Hpre) as (Hi & Hr & Ho).
      rewrite track_nil_undefined in *.
      cbn [invoked recorded outcome].
      rewrite Hi, Hr. repeat split; tauto.
    + destruct (IH (track errors err) reason Hpre) as (Hi & Hr & Ho).
      rewrite (track_app (track errors err) reason), <- app_assoc in Hi, Hr, Ho.
      cbn [invoked recorded outcome].
      rewrite Hi, Hr. repeat split.
      right. destruct Ho as [-> | ->]; [reflexivity|].
      now destruct (outcome _).
Qed.

(** A helper is invoked only if every helper before it returned the
    sentinel or a rejected promise. *)
Lemma walk_reaches pre rest : forall errors err,
  (List.length pre < List.length (invoked (walk (pre ++ rest) errors err)))%nat ->
  Forall (fun h => advances (ask h) = true) pre.
Proof.
  induction pre as [|h pre IH]; intros errors err Hlen; [constructor|].
  cbn [app tryNextHelper] in Hlen.
  destruct (ask h) as [[| |[v|reason|]]| |thrown] eqn:Hh;
    cbn [invoked List.length] in Hlen; try lia.
  - constructor; [now rewrite Hh|].
    apply (IH (track errors err) VUndefined); lia.
  - constructor; [now rewrite Hh|].
    apply (IH (track errors err) reason); lia.
Qed.

(** When the list is exhausted the recorded errors decide. *)
Lemma walk_exhausted errors :
  let r := walk [] errors VUndefined in
  invoked r = [] /\ recorded r = errors /\
  (errors <> [] -> outcome r = Returns (Rejected (VArray errors))) /\
  (errors = [] -> outcome r = Returns (Fulfilled VNull)).
Proof.
  simpl. destruct errors as [|e errors]; simpl.
  - split; [reflexivity|]. split; [reflexivity|].
    split; [intros H; now elim H | reflexivity].
  - split; [reflexivity|]. split; [reflexivity|].
    split; [reflexivity | discriminate].
Qed.

End Walk.

(** *** [load] *)

Section Load.

Variable Cache : Type.
Variable builtin_load :
  Cache -> AssetType -> MaybeString -> MaybeString -> Loading.
Variable getBytes : StorageRef -> Settle.
Variable this : t Cache.
Variable assetType : AssetType.
Variable assetId dataFormat : MaybeString.

Local Abbreviation format := (defaultFormat dataFormat assetType).
Local Abbreviation ask h :=
  (helper_load builtin_load getBytes this h assetType assetId format).
Local Abbreviation walk :=
  (tryNextHelper builtin_load getBytes this assetType assetId format).
Local Abbreviation loaded :=
  (load builtin_load getBytes this assetType assetId dataFormat).

(** C1, amended: a helper whose promise resolves to null ends the call, which
    resolves to null with no later helper invoked; the walk goes on to the
    next helper, with nothing added to the errors, when the helper returns
    the null sentinel instead of a promise. *)
Theorem load_null_promise_ends_walk
  (pre : list Helper) (h : Helper) (post : list Helper) :
  map helper (_helpers this) = pre ++ h :: post ->
  Forall (fun x => advances (ask x) = true) pre ->
  (ask h = RetPromise (Fulfilled VNull) ->
   outcome loaded = Returns (Fulfilled VNull) /\
   invoked loaded = pre ++ [h]) /\
  (ask h = RetNull ->
   let next := walk post (rejections (map (fun x => ask x) pre)) VUndefined in
   invoked loaded = pre ++ h :: invoked next /\
   recorded loaded = recorded next /\
   (outcome loaded = outcome next \/
    outcome loaded = Returns (adopt (outcome next)))).
Proof.
  intros Hhs Hpre. unfold load. rewrite Hhs.
  destruct (walk_past Cache builtin_load getBytes this assetType assetId
              format pre (h :: post) [] VUndefined Hpre) as (Hi & Hr & Ho).
  cbn [track truthy app] in Hi, Hr, Ho.
  split; intros Hh.
  - cbn [tryNextHelper] in Hi, Hr, Ho. rewrite Hh in Hi, Hr, Ho.
    cbn [invoked outcome adopt] in Hi, Ho.
    split; [now destruct Ho | exact Hi].
  - cbn [tryNextHelper] in Hi, Hr, Ho. rewrite Hh in Hi, Hr, Ho.
    cbn [invoked recorded outcome] in Hi, Hr, Ho.
    rewrite track_nil_undefined in Hi, Hr, Ho.
    cbv zeta. split; [exact Hi|]. split; [exact Hr | exact Ho].
Qed.

(** C2, amended: when every helper has returned the sentinel or a promise
    that was rejected, all helpers have been invoked, the recorded errors
    are the truthy rejection reasons in attempt order, and the call rejects
    with exactly that list if it is not empty and resolves to null if it
    is. *)
Theorem load_exhausted :
  Forall (fun x => advances (ask x) = true) (map helper (_helpers this)) ->
  invoked loaded = map helper (_helpers this) /\
  recorded loaded =
    rejections (map (fun x => ask x) (map helper (_helpers this))) /\
  (recorded loaded <> [] ->
   outcome loaded = Returns (Rejected (VArray (recorded loaded)))) /\
  (recorded loaded = [] -> outcome loaded = Returns (Fulfilled VNull)).
Proof.
  intros Hall. unfold load.
  destruct (walk_past Cache builtin_load getBytes this assetType assetId
              format (map helper (_helpers this)) [] [] VUndefined Hall)
    as (Hi & Hr & Ho).
  rewrite app_nil_r in Hi, Hr, Ho.
  cbn [track truthy app] in Hi, Hr, Ho.
  set (errors := rejections _) in *.
  destruct (walk_exhausted Cache builtin_load getBytes this assetType assetId
              format errors) as (Hi' & Hr' & Hne & Hnil).
  cbv zeta in Hi, Hr, Ho.
  rewrite Hi' in Hi. rewrite app_nil_r in Hi.
  rewrite Hr' in Hr.
  split; [exact Hi|]. split; [exact Hr|].
  rewrite Hr. split; intros He.
  - rewrite (Hne He) in Ho. now destruct Ho.
  - rewrite (Hnil He) in Ho. now destruct Ho.
Qed.

(** C6: if a helper is invoked and its promise resolves with an asset, the
    call resolves with that asset, whatever errors the helpers before it
    have recorded: those stay in the list and are not reported. *)
Theorem load_success_suppresses_errors
  (pre : list Helper) (h : Helper) (post : list Helper) (a : Asset) :
  map helper (_helpers this) = pre ++ h :: post ->
  (List.length pre < List.length (invoked loaded))%nat ->
  ask h = RetPromise (Fulfilled (VAsset a)) ->
  outcome loaded = Returns (Fulfilled (VAsset a)) /\
  recorded loaded = rejections (map (fun x => ask x) pre).
Proof.
  unfold load. intros Hhs Hlen Hh. rewrite Hhs in *.
  pose proof (walk_reaches Cache builtin_load getBytes this assetType assetId
                format pre (h :: post) [] VUndefined Hlen) as Hpre.
  destruct (walk_past Cache builtin_load getBytes this assetType assetId
              format pre (h :: post) [] VUndefined Hpre) as (Hi & Hr & Ho).
  cbn [track truthy app tryNextHelper] in Hi, Hr, Ho.
  rewrite Hh in Hi, Hr, Ho.
  cbn [invoked recorded outcome adopt] in Hi, Hr, Ho.
  split; [now destruct Ho | exact Hr].
Qed.

(** A helper whose promise resolves is the last one invoked. *)
Lemma load_stops_at_success
  (pre : list Helper) (h : Helper) (post : list Helper) (v : Value) :
  map helper (_helpers this) = pre ++ h :: post ->
  (List.length pre < List.length (invoked loaded))%nat ->
  ask h = RetPromise (Fulfilled v) ->
  invoked loaded = pre ++ [h].
Proof.
  unfold load. intros Hhs Hlen Hh. rewrite Hhs in *.
  pose proof (walk_reaches Cache builtin_load getBytes this assetType assetId
                format pre (h :: post) [] VUndefined Hlen) as Hpre.
  destruct (walk_past Cache builtin_load getBytes this assetType assetId
              format pre (h :: post) [] VUndefined Hpre) as (Hi & _).
  cbn [tryNextHelper] in Hi. rewrite Hh in Hi. exact Hi.
Qed.

End Load.

Lemma load_null_promise_ends_walk_witness :
  let this := withHelpers tt [rejects403; resolvesNull; resolvesAsset] in
  let r := load emptyBuiltin getBytes_none this ImageVector (Str "abc123") Undefined in
  outcome r = Returns (Fulfilled VNull) /\
  invoked r = [rejects403; resolvesNull].
Proof.
  refine (proj1 (load_null_promise_ends_walk unit emptyBuiltin getBytes_none
                   (withHelpers tt [rejects403; resolvesNull; resolvesAsset])
                   ImageVector (Str "abc123") Undefined
                   [rejects403] resolvesNull [resolvesAsset] eq_refl _) eq_refl).
  repeat constructor.
Defined.

(** C1, as stated, fails: the first helper's promise resolves to null and
    the second helper, which holds the asset, is never invoked. *)
Lemma load_null_promise_advances_counterexample :
  let this := withHelpers tt [resolvesNull; resolvesAsset] in
  let r := load emptyBuiltin getBytes_none this ImageVector (Str "abc123") Undefined in
  helper_load emptyBuiltin getBytes_none this resolvesNull ImageVector
    (Str "abc123") (Str "svg") = RetPromise (Fulfilled VNull) /\
  invoked r = [resolvesNull] /\
  outcome r = Returns (Fulfilled VNull) /\
  outcome r <> Returns (Fulfilled (VAsset theAsset)).
Proof.
  cbv zeta. repeat split; discriminate.
Qed.

Lemma load_exhausted_witness :
  let this := withHelpers tt [rejects403; skips; rejects500] in
  let r := load emptyBuiltin getBytes_none this ImageVector (Str "abc123") Undefined in
  recorded r = [VNum 403; VNum 500] /\
  outcome r = Returns (Rejected (VArray [VNum 403; VNum 500])).
Proof.
  destruct (load_exhausted unit emptyBuiltin getBytes_none
              (withHelpers tt [rejects403; skips; rejects500])
              ImageVector (Str "abc123") Undefined)
    as (_ & Hr & Hne & _).
  - repeat constructor.
  - split; [exact Hr|].
    rewrite Hne; [rewrite Hr; reflexivity | rewrite Hr; discriminate].
Defined.

(** C2, as stated, fails: both helpers have been attempted, none produced an
    asset and an error was recorded, yet the call resolves to null, because
    the last helper's promise resolved to null. *)
Lemma load_rejects_with_recorded_counterexample :
  let this := withHelpers tt [rejects403; resolvesNull] in
  let r := load emptyBuiltin getBytes_none this ImageVector (Str "abc123") Undefined in
  invoked r = [rejects403; resolvesNull] /\
  recorded r = [VNum 403] /\
  outcome r = Returns (Fulfilled VNull) /\
  outcome r <> Returns (Rejected (VArray [VNum 403])).
Proof.
  cbv zeta. repeat split; discriminate.
Qed.

Lemma load_success_suppresses_errors_witness :
  let this := withHelpers tt [rejects403; skips; rejects500; resolvesAsset; skips] in
  let r := load emptyBuiltin getBytes_none this ImageVector (Str "abc123") Undefined in
  outcome r = Returns (Fulfilled (VAsset theAsset)) /\
  recorded r = [VNum 403; VNum 500].
Proof.
  refine (load_success_suppresses_errors unit emptyBuiltin getBytes_none
            (withHelpers tt [rejects403; skips; rejects500; resolvesAsset; skips])
            ImageVector (Str "abc123") Undefined
            [rejects403; skips; rejects500] resolvesAsset [skips] theAsset
            eq_refl _ eq_refl).
  simpl; lia.
Defined.

(** *** The remote helper without a store for the type *)

(** C9, as stated, fails: with no store registered for the type the remote
    helper returns a promise, rejected with the empty error list, and the
    coordinator, for which every array is an error, records that list and
    in the end rejects with it. *)
Lemma load_without_store_returns_sentinel_counterexample :
  let this := addFirebaseStore (new tt) [Project] bucket in
  let run := FirebaseHelper.load getBytes_none (firebaseHelper this)
               ImageVector (Str "abc123") (Str "svg") in
  let r := load emptyBuiltin getBytes_none this ImageVector (Str "abc123") Undefined in
  FirebaseHelper.candidates (firebaseHelper this) ImageVector = [] /\
  FirebaseHelper.returned run = RetPromise (Rejected (VArray [])) /\
  FirebaseHelper.returned run <> RetNull /\
  recorded r = [VArray []] /\
  outcome r = Returns (Rejected (VArray [VArray []])).
Proof.
  cbv zeta. repeat split; discriminate.
Qed.

(** C9, amended: with no store registered for the requested type the remote
    helper issues no network call and does not return the null sentinel, so
    the coordinator, which skips a helper only on that sentinel, does not
    skip it; for every type other than Project what the helper returns is a
    promise. *)
Theorem load_without_candidate_store_gives_no_sentinel
  (Cache : Type)
  (builtin_load : Cache -> AssetType -> MaybeString -> MaybeString -> Loading)
  (getBytes : StorageRef -> Settle)
  (this : t Cache) (assetType : AssetType) (assetId dataFormat : MaybeString) :
  FirebaseHelper.candidates (firebaseHelper this) assetType = [] ->
  let run := FirebaseHelper.load getBytes (firebaseHelper this)
               assetType assetId dataFormat in
  network_calls (FirebaseHelper.events run) = [] /\
  FirebaseHelper.returned run <> RetNull /\
  helper_load builtin_load getBytes this Firebase assetType assetId dataFormat
    <> RetNull /\
  (name assetType <> "Project" ->
   exists p, FirebaseHelper.returned run = RetPromise p).
Proof.
  intros Hc. cbv zeta. cbn [helper_load].
  unfold FirebaseHelper.load. rewrite Hc.
  destruct (String.eqb_spec (name assetType) "Project") as [Hp|Hp];
    cbn [FirebaseHelper.returned FirebaseHelper.events
         FirebaseHelper.tryNextSource track truthy].
  - split; [reflexivity|]. split; [discriminate|]. split; [discriminate|].
    intros H; now elim H.
  - split; [reflexivity|]. split; [discriminate|]. split; [discriminate|].
    intros _. eexists; reflexivity.
Qed.

Lemma load_without_candidate_store_gives_no_sentinel_witness :
  let this := addFirebaseStore (new tt) [Project] bucket in
  FirebaseHelper.candidates (firebaseHelper this) ImageVector = [] /\
  FirebaseHelper.returned
    (FirebaseHelper.load getBytes_none (firebaseHelper this)
       ImageVector (Str "abc123") (Str "svg")) <> RetNull.
Proof.
  split; [reflexivity|].
  exact (proj1 (proj2 (load_without_candidate_store_gives_no_sentinel unit
                         emptyBuiltin getBytes_none
                         (addFirebaseStore (new tt) [Project] bucket)
                         ImageVector (Str "abc123") (Str "svg") eq_refl))).
Defined.

(** *** [store] *)

(** X19: When the remote write succeeds with a metadata object, the
    built-in helper's [_store] is called with the type, the format, the
    written bytes and the id of the metadata, and the cache is what that
    call leaves; if the call completes the promise of [store] resolves with
    the metadata, and if it throws the promise is rejected with what was
    thrown. *)
Theorem store_mirrors_into_cache
  (Cache : Type)
  (_store : Cache -> AssetType -> MaybeString -> Buffer -> Value ->
            Completion * Cache)
  (uploadBytes : StorageRef -> Buffer -> Settle)
  (this : t Cache) (assetType : AssetType) (dataFormat : MaybeString)
  (data : Buffer) (assetId : MaybeString) (body id : Value) :
  FirebaseHelper.store_returned
    (FirebaseHelper.store uploadBytes (firebaseHelper this) assetType
       (defaultFormat dataFormat assetType) data assetId) =
    RetPromise (Fulfilled body) ->
  get_prop body "id" = Some id ->
  let r := store _store uploadBytes this assetType dataFormat data assetId in
  let mirrored := _store (builtinHelper this) assetType
                    (defaultFormat dataFormat assetType) data id in
  cache r = snd mirrored /\
  (forall v, fst mirrored = Normal v -> promise r = Fulfilled body) /\
  (forall e, fst mirrored = Abrupt e -> promise r = Rejected e).
Proof.
  intros Hremote Hid. cbv zeta. unfold store.
  rewrite Hremote, Hid.
  destruct (_store _ _ _ _ _) as [[v|e] cache']; cbn [promise cache fst snd].
  - split; [reflexivity|]. split; [reflexivity | discriminate].
  - split; [reflexivity|]. split; [discriminate | now intros ? [= ->]].
Qed.

Lemma store_mirrors_into_cache_witness :
  let this := withStores [] [readWrite] in
  let r := store _store_ok uploadBytes_ok this ImageVector Undefined png
             (Str "abc123") in
  cache r = [(VStr "abc123", png)] /\
  promise r = Fulfilled metadata.
Proof.
  destruct (store_mirrors_into_cache (list (Value * Buffer)) _store_ok
              uploadBytes_ok (withStores [] [readWrite]) ImageVector Undefined
              png (Str "abc123") metadata (VStr "abc123") eq_refl eq_refl)
    as (Hc & Hn & _).
  split; [exact Hc | exact (Hn (VStr "abc123") eq_refl)].
Defined.

End ScratchStorageProofs.

(* ===================================================================== *)
(** ** Further properties of the remote helper *)
(* ===================================================================== *)

Module FirebaseHelperStores.

Import FirebaseHelper Fixtures FirebaseHelperProofs.

(** *** Registration *)

Lemma filter_map_comm {A B : Type} (f : B -> bool) (g : A -> B) (l : list A) :
  filter f (map g l) = map g (filter (fun a => f (g a)) l).
Proof.
  induction l as [|a l IH]; simpl; [reflexivity|].
  destruct (f (g a)); simpl; now rewrite IH.
Qed.

Lemma stores_fold_addStore calls : forall this,
  stores (fold_left (fun h call => addStore h (fst call) (snd call)) calls this) =
  stores this ++ map (fun call => record_of (fst call) (snd call)) calls.
Proof.
  induction calls as [|c calls IH]; intros this; simpl.
  - now rewrite app_nil_r.
  - rewrite IH. unfold addStore; simpl. now rewrite <- app_assoc.
Qed.

(** X1: After a sequence of [addStore] calls the helper holds one record per
    call, in call order, with nothing merged or dropped when a type or a
    storage reference is registered twice; the candidates of [load] for a
    type are the records of the calls that named the type, in call order. *)
Theorem registered_stores_in_call_order
  (calls : list (list AssetType * StorageReference)) (assetType : AssetType) :
  stores (registered calls) =
    map (fun call => record_of (fst call) (snd call)) calls /\
  candidates (registered calls) assetType =
    map (fun call => record_of (fst call) (snd call))
        (filter (fun call =>
                   (0 <=? indexOf (map name (fst call)) (name assetType))%Z)
                calls).
Proof.
  assert (Hs : stores (registered calls) =
               map (fun call => record_of (fst call) (snd call)) calls).
  { unfold registered. now rewrite stores_fold_addStore. }
  split; [exact Hs|].
  unfold candidates. rewrite Hs, filter_map_comm. reflexivity.
Qed.

(** *** What [load] returns *)

(** X2: [load] never returns the null sentinel and never a promise that is
    fulfilled: it returns [undefined] when the type is Project or some store
    declares the type, and otherwise a promise rejected with the empty
    list. *)
Theorem load_returns_undefined_or_empty_rejection
  (getBytes : StorageRef -> Settle) (this : t) (assetType : AssetType)
  (assetId dataFormat : MaybeString) :
  let run := load getBytes this assetType assetId dataFormat in
  (returned run = RetUndefined /\
   (name assetType = "Project" \/ candidates this assetType <> [])) \/
  (returned run = RetPromise (Rejected (VArray [])) /\
   name assetType <> "Project" /\ candidates this assetType = [] /\
   events run = []).
Proof.
  cbv zeta. unfold load.
  destruct (String.eqb_spec (name assetType) "Project") as [Hp|Hp].
  - left; split; [reflexivity | now left].
  - rewrite tryNextSource_returned.
    destruct (candidates this assetType) as [|s l].
    + right. repeat split; assumption.
    + left; split; [reflexivity | right; discriminate].
Qed.

(** *** The walk over the stores *)

Section Walk.

Variable getBytes : StorageRef -> Settle.
Variable assetId dataFormat : MaybeString.

Local Abbreviation empty s := (comes_back_empty getBytes assetId dataFormat s).
Local Abbreviation walk := (tryNextSource getBytes assetId dataFormat).
Local Abbreviation path :=
  (Str (toString assetId ++ "." ++ toString dataFormat)%string).

(** Past stores whose reads all come back empty, the walk is the walk over
    the rest. *)
Lemma walk_past_empty before rest : forall errors asset err,
  Forall (fun s => empty s = true) before ->
  let run := walk (before ++ rest) errors asset err in
  let next := walk rest (track errors err) asset VUndefined in
  events run = flat_map (visit assetId dataFormat) before ++ events next /\
  FirebaseHelper.asset run = FirebaseHelper.asset next /\
  (before <> [] -> returned run = RetUndefined).
Proof.
  induction before as [|s before IH]; intros errors asset err Hall.
  - cbn [app flat_map]. split; [|split; [|intros H; now elim H]].
    + destruct rest; reflexivity.
    + destruct rest; reflexivity.
  - inversion Hall as [|? ? Hs Hb]; subst.
    cbn [app tryNextSource flat_map visit].
    unfold comes_back_empty in Hs.
    destruct (getBytes _) as [buffer| |]; try discriminate.
    apply negb_true_iff in Hs. rewrite Hs.
    destruct (IH (track errors err) asset VUndefined Hb) as (He & Ha & _).
    cbn [events FirebaseHelper.asset returned].
    rewrite He, Ha. cbn [track truthy].
    split; [reflexivity|]. split; [reflexivity|]. intros _; reflexivity.
Qed.

(** At a store whose read does not come back empty the walk ends. *)
Lemma walk_stops s rest errors asset err :
  empty s = false ->
  let run := walk (s :: rest) errors asset err in
  events run = visit assetId dataFormat s /\
  FirebaseHelper.asset run =
    match getBytes (ref (storageReference s) path) with
    | Fulfilled buffer => setData asset buffer
    | _ => asset
    end /\
  detached run =
    [match getBytes (ref (storageReference s) path) with
     | Fulfilled buffer => Fulfilled (VAsset (setData asset buffer))
     | other => other
     end].
Proof.
  intros Hs. cbn [tryNextSource]. unfold comes_back_empty in Hs.
  destruct (getBytes _) as [buffer| |].
  - apply negb_false_iff in Hs. rewrite Hs. repeat split.
  - repeat split.
  - repeat split.
Qed.

End Walk.

(** X3: The first store that answers decides.  When the reads of the
    candidates before a store come back empty and the read of that store
    does not, [load] reads exactly those stores, in registration order, each
    read followed by the 'Asset not found' warning (also when the asset was
    found), and reads no store after it; the asset carries the bytes of that
    store if its read was fulfilled and no data if it was rejected or never
    settled. *)
Theorem load_first_answer_decides
  (getBytes : StorageRef -> Settle) (this : t) (assetType : AssetType)
  (assetId dataFormat : MaybeString)
  (before : list StoreRecord) (s : StoreRecord) (after : list StoreRecord) :
  name assetType <> "Project" ->
  candidates this assetType = before ++ s :: after ->
  Forall (fun r => comes_back_empty getBytes assetId dataFormat r = true) before ->
  comes_back_empty getBytes assetId dataFormat s = false ->
  let run := load getBytes this assetType assetId dataFormat in
  events run = flat_map (visit assetId dataFormat) (before ++ [s]) /\
  asset run =
    match getBytes (ref (storageReference s)
                        (Str (toString assetId ++ "." ++ toString dataFormat)%string)) with
    | Fulfilled buffer => setData (newAsset assetType assetId dataFormat) buffer
    | _ => newAsset assetType assetId dataFormat
    end.
Proof.
  intros Hp Hc Hb Hs. cbv zeta. unfold load.
  apply String.eqb_neq in Hp; rewrite Hp, Hc.
  destruct (walk_past_empty getBytes assetId dataFormat before (s :: after)
              [] (newAsset assetType assetId dataFormat) VUndefined Hb)
    as (He & Ha & _).
  destruct (walk_stops getBytes assetId dataFormat s after (track [] VUndefined)
              (newAsset assetType assetId dataFormat) VUndefined Hs)
    as (He' & Ha' & _).
  rewrite He, Ha, He', Ha'.
  split; [|reflexivity].
  rewrite flat_map_app. cbn [flat_map]. now rewrite app_nil_r.
Qed.

Lemma load_first_answer_decides_witness :
  let this := registered [([ImageVector], bucket); ([Project], bucket);
                          ([ImageVector], mirror); ([ImageVector], bucket)] in
  let run := load getBytes_mirror this ImageVector (Str "abc123") (Str "png") in
  events run =
    [GetBytes (ref bucket (Str "abc123.png")); warnNotFound;
     GetBytes (ref mirror (Str "abc123.png")); warnNotFound] /\
  asset run = theAsset.
Proof.
  refine (load_first_answer_decides getBytes_mirror
            (registered [([ImageVector], bucket); ([Project], bucket);
                         ([ImageVector], mirror); ([ImageVector], bucket)])
            ImageVector (Str "abc123") (Str "png")
            [record_of [ImageVector] bucket] (record_of [ImageVector] mirror)
            [record_of [ImageVector] bucket] _ eq_refl _ eq_refl).
  - discriminate.
  - repeat constructor.
Defined.

(** X4: When the read of every candidate comes back empty, [load] reads all of
    them in registration order and leaves the asset without data. *)
Theorem load_nothing_found
  (getBytes : StorageRef -> Settle) (this : t) (assetType : AssetType)
  (assetId dataFormat : MaybeString) :
  name assetType <> "Project" ->
  Forall (fun r => comes_back_empty getBytes assetId dataFormat r = true)
         (candidates this assetType) ->
  let run := load getBytes this assetType assetId dataFormat in
  events run = flat_map (visit assetId dataFormat) (candidates this assetType) /\
  asset run = newAsset assetType assetId dataFormat /\
  network_calls (events run) =
    map (fetch assetId dataFormat) (candidates this assetType).
Proof.
  intros Hp Hall. cbv zeta. unfold load.
  apply String.eqb_neq in Hp; rewrite Hp.
  destruct (walk_past_empty getBytes assetId dataFormat
              (candidates this assetType) []
              [] (newAsset assetType assetId dataFormat) VUndefined Hall)
    as (He & Ha & _).
  rewrite app_nil_r in He, Ha. cbn [tryNextSource events FirebaseHelper.asset] in He, Ha.
  rewrite app_nil_r in He.
  split; [exact He|]. split; [exact Ha|].
  rewrite He. clear.
  induction (candidates this assetType) as [|s l IH]; [reflexivity|].
  cbn [flat_map visit app network_calls filter is_network fetch warnNotFound map].
  unfold network_calls in IH. now rewrite IH.
Qed.

Lemma load_nothing_found_witness :
  let this := registered [([ImageVector], bucket); ([ImageVector], mirror)] in
  let run := load getBytes_none this ImageVector (Str "abc123") (Str "png") in
  network_calls (events run) =
    [GetBytes (ref bucket (Str "abc123.png"));
     GetBytes (ref mirror (Str "abc123.png"))] /\
  data (asset run) = VUndefined.
Proof.
  destruct (load_nothing_found getBytes_none
              (registered [([ImageVector], bucket); ([ImageVector], mirror)])
              ImageVector (Str "abc123") (Str "png"))
    as (_ & Ha & Hn).
  - discriminate.
  - repeat constructor.
  - split; [exact Hn | now rewrite Ha].
Defined.

(** *** What [store] sends *)

Lemma eligible_true (assetType : AssetType) (c : bool) (s : StoreRecord) :
  eligible assetType c s = true ->
  In (name assetType) (types s) /\
  ((c = true /\ truthy (create s) = true) \/ truthy (update s) = true).
Proof.
  destruct c; intros H.
  - apply eligible_create_request in H. destruct H as [Hin [Hc|Hu]];
      (split; [exact Hin|]); [left; now split | now right].
  - apply eligible_update_request in H. destruct H as [Hin Hu].
    split; [exact Hin | now right].
Qed.

(** X5: [store] sends at most one request, and never a read.  The request, if
    any, is the upload of the given data under the given asset id to a
    registered store that declares the type and has a capability (create on
    a create request, or update); the promise of that upload is what [store]
    returns.  A store that does not declare the type, or has neither
    capability, is never written to. *)
Theorem store_sends_one_upload_to_a_capable_store
  (uploadBytes : StorageRef -> Buffer -> Settle) (this : t)
  (assetType : AssetType) (dataFormat : MaybeString) (data : Buffer)
  (assetId : MaybeString) :
  let run := store uploadBytes this assetType dataFormat data assetId in
  (List.length (network_calls (store_events run)) <= 1)%nat /\
  (forall r, ~ In (GetBytes r) (store_events run)) /\
  (forall r d, In (UploadBytes r d) (store_events run) ->
     d = data /\
     child r = assetId /\
     store_returned run = RetPromise (uploadBytes r data) /\
     name assetType <> "Project" /\
     exists s, In s (stores this) /\
               root r = storageReference s /\
               In (name assetType) (types s) /\
               ((is_create assetId = true /\ truthy (create s) = true) \/
                truthy (update s) = true)).
Proof.
  cbv zeta. unfold store.
  destruct (filter (eligible assetType (is_create assetId)) (stores this))
    as [|s l] eqn:Hf; cbn [first].
  - cbn [store_events store_returned network_calls filter List.length].
    split; [lia|]. split; [intros r []|intros r d []].
  - assert (Hs : In s (filter (eligible assetType (is_create assetId)) (stores this)))
      by (rewrite Hf; now left).
    apply filter_In in Hs. destruct Hs as [Hin Hel].
    apply eligible_true in Hel. destruct Hel as [Hty Hcap].
    destruct (String.eqb_spec (name assetType) "Project") as [Hp|Hp];
      cbn [store_events store_returned network_calls filter is_network
           warnProject List.length].
    + split; [lia|]. split.
      * intros r [H|[]]; discriminate.
      * intros r d [H|[]]; discriminate.
    + split; [lia|]. split.
      * intros r [H|[]]; discriminate.
      * intros r d [H|[]]. injection H as <- <-.
        split; [reflexivity|]. split; [reflexivity|].
        split; [reflexivity|]. split; [exact Hp|].
        exists s. repeat split; assumption.
Qed.

Lemma store_first_eligible_witness :
  let this := {| stores := [record_of [ImageVector] mirror; updateOnly; readWrite] |} in
  store uploadBytes_ok this ImageVector (Str "svg") png (Str "abc123") =
  {| store_returned := RetPromise (Fulfilled metadata);
     store_events := [UploadBytes (ref bucket (Str "abc123")) png] |}.
Proof.
  refine (store_first_eligible uploadBytes_ok
            {| stores := [record_of [ImageVector] mirror; updateOnly; readWrite] |}
            ImageVector (Str "svg") png (Str "abc123")
            [record_of [ImageVector] mirror] updateOnly [readWrite]
            eq_refl _ eq_refl _).
  - repeat constructor.
  - discriminate.
Defined.

End FirebaseHelperStores.

(* ===================================================================== *)
(** ** Further properties of the coordinator *)
(* ===================================================================== *)

Module ScratchStorageChains.

Import ScratchStorage Fixtures ScratchStorageProofs.

(** *** Configuration *)

Lemma configure_helpers {Cache : Type} (this : t Cache) (c : Call) :
  Permutation (_helpers (configure this c)) (_helpers this ++ added [c]).
Proof.
  destruct c as [h prio|types r]; cbn [configure added flat_map app].
  - unfold addHelper; cbn [_helpers]. symmetry. apply sort_perm.
  - cbn [addFirebaseStore _helpers]. now rewrite app_nil_r.
Qed.

Lemma configured_helpers {Cache : Type} (calls : list Call) :
  forall this : t Cache,
    Permutation (_helpers (fold_left configure calls this))
                (_helpers this ++ added calls).
Proof.
  induction calls as [|c calls IH]; intros this; cbn [fold_left].
  - cbn [added flat_map]. now rewrite app_nil_r.
  - rewrite IH, configure_helpers.
    replace (added (c :: calls)) with (added [c] ++ added calls)
      by (unfold added; cbn [flat_map]; now rewrite app_nil_r).
    now rewrite <- app_assoc.
Qed.

Lemma configured_stores {Cache : Type} (calls : list Call) :
  forall this : t Cache,
    FirebaseHelper.stores (firebaseHelper (fold_left configure calls this)) =
    FirebaseHelper.stores (firebaseHelper this) ++ registrations calls.
Proof.
  induction calls as [|c calls IH]; intros this; cbn [fold_left].
  - cbn [registrations flat_map]. now rewrite app_nil_r.
  - rewrite IH. destruct c as [h prio|types r];
      cbn [configure addHelper addFirebaseStore firebaseHelper
           registrations flat_map app FirebaseHelper.addStore
           FirebaseHelper.stores].
    + reflexivity.
    + now rewrite <- app_assoc.
Qed.

Lemma configured_builtin {Cache : Type} (calls : list Call) :
  forall this : t Cache,
    builtinHelper (fold_left configure calls this) = builtinHelper this.
Proof.
  induction calls as [|c calls IH]; intros this; cbn [fold_left];
    [reflexivity|].
  rewrite IH. now destruct c.
Qed.

(** X7: Whatever [addHelper] and [addFirebaseStore] calls are made, in whatever
    order, no helper is lost or duplicated: the helper list holds exactly
    the entries it held before and one entry per [addHelper] call, with
    priority 0 where none was given.  The store records of the remote helper
    are those it had, followed by one per [addFirebaseStore] call in call
    order, and the built-in helper is not touched. *)
Theorem configuration_keeps_every_helper
  (Cache : Type) (this : t Cache) (calls : list Call) :
  let this' := fold_left configure calls this in
  Permutation (_helpers this') (_helpers this ++ added calls) /\
  List.length (_helpers this') =
    (List.length (_helpers this) + List.length (added calls))%nat /\
  FirebaseHelper.stores (firebaseHelper this') =
    FirebaseHelper.stores (firebaseHelper this) ++ registrations calls /\
  builtinHelper this' = builtinHelper this.
Proof.
  cbv zeta.
  pose proof (configured_helpers calls this) as Hp.
  split; [exact Hp|]. split.
  - apply Permutation_length in Hp. now rewrite length_app in Hp.
  - split; [apply configured_stores | apply configured_builtin].
Qed.

(** *** The data format *)

Lemma defaultFormat_idem (dataFormat : MaybeString) (t : AssetType) :
  defaultFormat (defaultFormat dataFormat t) t = defaultFormat dataFormat t.
Proof.
  unfold defaultFormat.
  destruct (truthy (of_maybe dataFormat)) eqn:Hd; [now rewrite Hd|].
  cbn [of_maybe truthy]. now destruct (negb _).
Qed.

(** X8: A [load] or [store] call with no data format, or with a null or empty
    one, is the same call as with the runtime format of the asset type. *)
Theorem omitted_format_is_runtime_format
  (Cache : Type)
  (builtin_load : Cache -> AssetType -> MaybeString -> MaybeString -> Loading)
  (_store : Cache -> AssetType -> MaybeString -> Buffer -> Value ->
            Completion * Cache)
  (getBytes : StorageRef -> Settle)
  (uploadBytes : StorageRef -> Buffer -> Settle)
  (this : t Cache) (assetType : AssetType) (assetId : MaybeString)
  (data : Buffer) :
  Forall (fun omitted =>
            load builtin_load getBytes this assetType assetId omitted =
            load builtin_load getBytes this assetType assetId
              (Str (runtimeFormat assetType)) /\
            store _store uploadBytes this assetType omitted data assetId =
            store _store uploadBytes this assetType
              (Str (runtimeFormat assetType)) data assetId)
         [Undefined; Null; Str ""].
Proof.
  assert (H : forall omitted,
             truthy (of_maybe omitted) = false ->
             defaultFormat omitted assetType =
             defaultFormat (Str (runtimeFormat assetType)) assetType).
  { intros omitted Ho. unfold defaultFormat at 1. rewrite Ho.
    unfold defaultFormat. cbn [of_maybe truthy]. now destruct (negb _). }
  assert (Hboth : forall omitted,
             truthy (of_maybe omitted) = false ->
             load builtin_load getBytes this assetType assetId omitted =
             load builtin_load getBytes this assetType assetId
               (Str (runtimeFormat assetType)) /\
             store _store uploadBytes this assetType omitted data assetId =
             store _store uploadBytes this assetType
               (Str (runtimeFormat assetType)) data assetId).
  { intros omitted Ho. unfold load, store. now rewrite (H omitted Ho). }
  constructor; [now apply Hboth|].
  constructor; [now apply Hboth|].
  constructor; [now apply Hboth|].
  constructor.
Qed.

(** *** How a [load] ends *)

Section Ends.

Variable Cache : Type.
Variable builtin_load :
  Cache -> AssetType -> MaybeString -> MaybeString -> Loading.
Variable getBytes : StorageRef -> Settle.
Variable this : t Cache.
Variable assetType : AssetType.
Variable assetId dataFormat : MaybeString.

Local Abbreviation ask h :=
  (helper_load builtin_load getBytes this h assetType assetId dataFormat).
Local Abbreviation walk :=
  (tryNextHelper builtin_load getBytes this assetType assetId dataFormat).

(** Every list splits at its first helper that does not make the walk go
    on. *)
Lemma split_at_first_stop (helpers : list Helper) :
  exists pre rest,
    helpers = pre ++ rest /\
    Forall (fun h => advances (ask h) = true) pre /\
    (rest = [] \/
     exists h post, rest = h :: post /\ advances (ask h) = false).
Proof.
  induction helpers as [|h hs (pre & rest & Hs & Hpre & Hrest)].
  - exists [], []. repeat split; [constructor | now left].
  - destruct (advances (ask h)) eqn:Hh.
    + exists (h :: pre), rest. subst hs.
      repeat split; [now constructor | exact Hrest].
    + exists [], (h :: hs).
      repeat split; [constructor | right; now exists h, hs].
Qed.

(** The walk throws when a helper returns [undefined] and every helper
    before it returned the sentinel. *)
Lemma walk_throws_at pre h post : forall errors err,
  Forall (fun x => ask x = RetNull) pre ->
  ask h = RetUndefined ->
  outcome (walk (pre ++ h :: post) errors err) = Throws VTypeError /\
  invoked (walk (pre ++ h :: post) errors err) = pre ++ [h].
Proof.
  induction pre as [|x pre IH]; intros errors err Hpre Hh.
  - cbn [app tryNextHelper]. rewrite Hh. split; reflexivity.
  - inversion Hpre as [|? ? Hx Hrest]; subst.
    cbn [app tryNextHelper]. rewrite Hx. cbn [outcome invoked].
    destruct (IH (track errors err) VUndefined Hrest Hh) as [Ho Hi].
    rewrite Ho, Hi. split; reflexivity.
Qed.

(** More generally it throws when, past such helpers, a helper returns a
    value with no [catch] method or throws itself, and only then. *)
Lemma walk_throws_when pre h post e : forall errors err,
  Forall (fun x => ask x = RetNull) pre ->
  (e = VTypeError /\ (ask h = RetUndefined \/ ask h = GaveOther)) \/
  ask h = Threw e ->
  outcome (walk (pre ++ h :: post) errors err) = Throws e /\
  invoked (walk (pre ++ h :: post) errors err) = pre ++ [h].
Proof.
  induction pre as [|x pre IH]; intros errors err Hpre Hh.
  - cbn [app tryNextHelper].
    destruct Hh as [[-> [Hh|Hh]]|Hh]; rewrite Hh; split; reflexivity.
  - inversion Hpre as [|? ? Hx Hrest]; subst.
    cbn [app tryNextHelper]. rewrite Hx. cbn [outcome invoked].
    destruct (IH (track errors err) VUndefined Hrest Hh) as [Ho Hi].
    rewrite Ho, Hi. split; reflexivity.
Qed.

Lemma walk_throws_only helpers : forall errors err e,
  outcome (walk helpers errors err) = Throws e ->
  exists pre h post,
    helpers = pre ++ h :: post /\
    Forall (fun x => ask x = RetNull) pre /\
    ((e = VTypeError /\ (ask h = RetUndefined \/ ask h = GaveOther)) \/
     ask h = Threw e).
Proof.
  induction helpers as [|x hs IH]; intros errors err e.
  - cbn [tryNextHelper]. destruct (0 <? _)%nat; discriminate.
  - cbn [tryNextHelper].
    destruct (ask x) as [[| |[v|reason|]]| |thrown] eqn:Hx; cbn [outcome];
      try discriminate.
    + intros Ho. destruct (IH _ _ _ Ho) as (pre & h & post & Hs & Hp & Hh).
      exists (x :: pre), h, post. subst hs.
      repeat split; [now constructor | exact Hh].
    + intros [= <-]. exists [], x, hs.
      split; [reflexivity|]. split; [constructor|].
      left. split; [reflexivity | now left].
    + intros [= <-]. exists [], x, hs.
      split; [reflexivity|]. split; [constructor|].
      left. split; [reflexivity | now right].
    + intros [= <-]. exists [], x, hs.
      split; [reflexivity|]. split; [constructor|]. now right.
Qed.

(** What is recorded is truthy and was the rejection reason of a helper
    that was invoked. *)
Lemma walk_recorded_from helpers : forall errors err,
  Forall (fun e =>
            In e (track errors err) \/
            (truthy e = true /\
             exists h, In h (invoked (walk helpers errors err)) /\
                       ask h = RetPromise (Rejected e)))
         (recorded (walk helpers errors err)).
Proof.
  induction helpers as [|x hs IH]; intros errors err.
  - cbn [tryNextHelper].
    assert (H : Forall (fun e => In e (track errors err)) (track errors err))
      by (apply Forall_forall; auto).
    destruct (0 <? _)%nat; cbn [recorded];
      (eapply Forall_impl; [|exact H]); intros e He; now left.
  - cbn [tryNextHelper].
    assert (H : forall inv,
               Forall (fun e => In e (track errors err) \/
                         (truthy e = true /\
                          exists h, In h inv /\ ask h = RetPromise (Rejected e)))
                      (track errors err)).
    { intros inv. apply Forall_forall. intros e He; now left. }
    destruct (ask x) as [[| |[v|reason|]]| |thrown] eqn:Hx; cbn [recorded invoked];
      try apply H.
    + eapply Forall_impl; [|apply (IH (track errors err) VUndefined)].
      intros e [He|(Ht & h & Hin & Hh)].
      * left. exact He.
      * right. split; [exact Ht|]. exists h. split; [now right | exact Hh].
    + eapply Forall_impl; [|apply (IH (track errors err) reason)].
      intros e [He|(Ht & h & Hin & Hh)].
      * unfold track at 1 in He.
        destruct (truthy reason) eqn:Hr; [|now left].
        apply in_app_or in He. destruct He as [He|[<-|[]]]; [now left|].
        right. split; [exact Hr|]. exists x. split; [now left | exact Hx].
      * right. split; [exact Ht|]. exists h. split; [now right | exact Hh].
Qed.

Lemma rejections_all_falsy (helpers : list Helper) :
  Forall (fun h => ask h = RetNull \/
                   exists reason, ask h = RetPromise (Rejected reason) /\
                                  truthy reason = false) helpers ->
  Forall (fun h => advances (ask h) = true) helpers /\
  rejections (map (fun h => ask h) helpers) = [].
Proof.
  induction 1 as [|h hs Hh _ [IHa IHr]]; [split; [constructor | reflexivity]|].
  destruct Hh as [Hh|(reason & Hh & Hf)].
  - split; [constructor; [now rewrite Hh | exact IHa]|].
    cbn [map rejections]. now rewrite Hh.
  - split; [constructor; [now rewrite Hh | exact IHa]|].
    cbn [map rejections]. rewrite Hh. unfold track. now rewrite Hf.
Qed.

End Ends.

Section Load.

Variable Cache : Type.
Variable builtin_load :
  Cache -> AssetType -> MaybeString -> MaybeString -> Loading.
Variable getBytes : StorageRef -> Settle.
Variable this : t Cache.
Variable assetType : AssetType.
Variable assetId dataFormat : MaybeString.

Local Abbreviation format := (defaultFormat dataFormat assetType).
Local Abbreviation ask h :=
  (helper_load builtin_load getBytes this h assetType assetId format).
Local Abbreviation walk :=
  (tryNextHelper builtin_load getBytes this assetType assetId format).
Local Abbreviation loaded :=
  (load builtin_load getBytes this assetType assetId dataFormat).

(** X9: Every [load] ends in one of four ways, at the first helper that neither
    returns the sentinel nor a promise that rejects.  If there is no such
    helper, all helpers were invoked and the call resolves to null or
    rejects with the recorded errors.  If that helper's promise is
    fulfilled, the call resolves with the same value; if it never settles,
    neither does the call; if the helper returned [undefined], the call
    fails with a TypeError, thrown or as the rejection reason, and so it
    does if the helper returned any other value that is not a promise; if
    the helper's [load] threw, the call fails with what it threw.  In each
    case that helper is the last one invoked, and the errors recorded are
    the truthy rejection reasons of the helpers before it. *)
Theorem load_ends_in_one_of_four_ways :
  exists pre,
    Forall (fun h => advances (ask h) = true) pre /\
    recorded loaded = rejections (map (fun h => ask h) pre) /\
    ((map helper (_helpers this) = pre /\
      invoked loaded = pre /\
      ((recorded loaded = [] /\ outcome loaded = Returns (Fulfilled VNull)) \/
       (recorded loaded <> [] /\
        outcome loaded = Returns (Rejected (VArray (recorded loaded)))))) \/
     (exists h post,
        map helper (_helpers this) = pre ++ h :: post /\
        invoked loaded = pre ++ [h] /\
        ((exists v, ask h = RetPromise (Fulfilled v) /\
                    outcome loaded = Returns (Fulfilled v)) \/
         (ask h = RetPromise Pending /\ outcome loaded = Returns Pending) \/
         (ask h = RetUndefined /\
          (outcome loaded = Throws VTypeError \/
           outcome loaded = Returns (Rejected VTypeError))) \/
         (ask h = GaveOther /\
          (outcome loaded = Throws VTypeError \/
           outcome loaded = Returns (Rejected VTypeError))) \/
         (exists e, ask h = Threw e /\
                    (outcome loaded = Throws e \/
                     outcome loaded = Returns (Rejected e)))))).
Proof.
  unfold load.
  destruct (split_at_first_stop Cache builtin_load getBytes this assetType
              assetId format (map helper (_helpers this)))
    as (pre & rest & Hs & Hpre & Hrest).
  rewrite Hs. exists pre. split; [exact Hpre|].
  destruct (walk_past Cache builtin_load getBytes this assetType assetId
              format pre rest [] VUndefined Hpre) as (Hi & Hr & Ho).
  cbn [track truthy app] in Hi, Hr, Ho. cbv zeta in Hi, Hr, Ho.
  set (errors := rejections _) in *.
  destruct Hrest as [->|(h & post & -> & Hh)].
  - destruct (walk_exhausted Cache builtin_load getBytes this assetType
                assetId format errors) as (Hi' & Hr' & Hne & Hnil).
    cbv zeta in Hi', Hr', Hne, Hnil.
    rewrite Hi' in Hi. rewrite Hr' in Hr. rewrite app_nil_r in *.
    split; [exact Hr|]. left.
    split; [reflexivity|]. split; [exact Hi|].
    rewrite Hr. destruct errors as [|e errors'] eqn:He.
    + left. split; [reflexivity|].
      rewrite (Hnil eq_refl) in Ho. now destruct Ho.
    + right. split; [discriminate|].
      rewrite (Hne ltac:(discriminate)) in Ho. now destruct Ho.
  - cbn [tryNextHelper] in Hi, Hr, Ho.
    destruct (ask h) as [[| |[v|reason|]]| |thrown] eqn:Hask; try discriminate;
      cbn [invoked recorded outcome adopt track truthy] in Hi, Hr, Ho;
      (split; [exact Hr|]); right; exists h, post;
      (split; [reflexivity|]); (split; [exact Hi|]).
    + right; right; left. split; [exact Hask | exact Ho].
    + left. exists v. split; [exact Hask | now destruct Ho].
    + right; left. split; [exact Hask | now destruct Ho].
    + right; right; right; left. split; [exact Hask | exact Ho].
    + right; right; right; right. exists thrown. split; [exact Hask | exact Ho].
Qed.

(** X10: Every recorded error is truthy and is the reason with which the
    promise of some invoked helper was rejected; no helper adds more than
    one. *)
Theorem load_records_only_truthy_rejections :
  Forall (fun e =>
            truthy e = true /\
            exists h, In h (invoked loaded) /\ ask h = RetPromise (Rejected e))
         (recorded loaded) /\
  (List.length (recorded loaded) <= List.length (invoked loaded))%nat.
Proof.
  unfold load. split.
  - eapply Forall_impl;
      [|apply (walk_recorded_from Cache builtin_load getBytes this assetType
                 assetId format (map helper (_helpers this)) [] VUndefined)].
    intros e [[]|H]. exact H.
  - assert (H : forall helpers errors err,
               (List.length (recorded (walk helpers errors err)) <=
                List.length (track errors err) +
                List.length (invoked (walk helpers errors err)))%nat).
    { induction helpers as [|x hs IH]; intros errors err; cbn [tryNextHelper].
      - destruct (0 <? _)%nat; cbn [recorded invoked List.length]; lia.
      - destruct (ask x) as [[| |[v|reason|]]| |thrown];
          cbn [recorded invoked List.length]; try lia.
        + specialize (IH (track errors err) VUndefined).
          cbn [track truthy] in IH. lia.
        + specialize (IH (track errors err) reason).
          rewrite (track_app (track errors err) reason), length_app in IH.
          assert (List.length (track [] reason) <= 1)%nat
            by (unfold track; destruct (truthy reason); simpl; lia).
          lia. }
    specialize (H (map helper (_helpers this)) [] VUndefined).
    cbn [track truthy List.length] in H. lia.
Qed.

(** X11: A rejection without a truthy reason leaves no trace: when every helper
    returns the sentinel or a promise rejected with a falsy reason
    ([undefined], [null], [0], the empty string, [false]), nothing is
    recorded and the call resolves to null as if nothing had failed. *)
Theorem load_drops_falsy_rejections :
  Forall (fun h => ask h = RetNull \/
                   exists reason, ask h = RetPromise (Rejected reason) /\
                                  truthy reason = false)
         (map helper (_helpers this)) ->
  outcome loaded = Returns (Fulfilled VNull) /\
  recorded loaded = [] /\
  invoked loaded = map helper (_helpers this).
Proof.
  intros Hall. unfold load.
  destruct (rejections_all_falsy Cache builtin_load getBytes this assetType
              assetId format _ Hall) as [Hadv Hnil].
  destruct (walk_past Cache builtin_load getBytes this assetType assetId
              format (map helper (_helpers this)) [] [] VUndefined Hadv)
    as (Hi & Hr & Ho).
  rewrite app_nil_r in Hi, Hr, Ho.
  cbn [track truthy app] in Hi, Hr, Ho. cbv zeta in Hi, Hr, Ho.
  rewrite Hnil in Hi, Hr, Ho.
  cbn [tryNextHelper track truthy List.length Nat.ltb Nat.leb invoked recorded
       outcome adopt] in Hi, Hr, Ho.
  rewrite app_nil_r in Hi.
  split; [now destruct Ho|]. split; [exact Hr | exact Hi].
Qed.

(** X12: The call throws, instead of returning a promise, exactly when some
    helper, reached past helpers that all returned the null sentinel, gives
    no promise: if it returned [undefined] or another value with no [catch]
    method, what is thrown is a TypeError; if its [load] threw, the call
    throws what it threw.  Once a helper has returned a promise the call
    returns a promise. *)
Theorem load_throws_iff (e : Value) :
  outcome (load builtin_load getBytes this assetType assetId dataFormat) =
    Throws e <->
  exists pre h post,
    map helper (_helpers this) = pre ++ h :: post /\
    Forall (fun x => ask x = RetNull) pre /\
    ((e = VTypeError /\ (ask h = RetUndefined \/ ask h = GaveOther)) \/
     ask h = Threw e).
Proof.
  unfold load. split.
  - intros He.
    exact (walk_throws_only Cache builtin_load getBytes this assetType
             assetId format _ _ _ _ He).
  - intros (pre & h & post & Hs & Hpre & Hh). rewrite Hs.
    now destruct (walk_throws_when Cache builtin_load getBytes this assetType
                    assetId format pre h post e [] VUndefined Hpre Hh).
Qed.

(** X13: The remote helper cannot be consulted through the coordinator: when the
    walk comes to it past helpers that returned the sentinel, and the type
    is Project or some store is registered for the type, the helper returns
    [undefined] and the call throws a TypeError. *)
Theorem load_through_remote_helper_throws
  (pre post : list Helper) :
  map helper (_helpers this) = pre ++ Firebase :: post ->
  Forall (fun x => ask x = RetNull) pre ->
  name assetType = "Project" \/
  FirebaseHelper.candidates (firebaseHelper this) assetType <> [] ->
  outcome loaded = Throws VTypeError /\
  invoked loaded = pre ++ [Firebase].
Proof.
  intros Hs Hpre Hc. unfold load. rewrite Hs.
  apply walk_throws_at; [exact Hpre|].
  cbn [helper_load]. unfold FirebaseHelper.load.
  destruct (String.eqb_spec (name assetType) "Project") as [Hp|Hp];
    [reflexivity|].
  rewrite FirebaseHelperProofs.tryNextSource_returned.
  destruct Hc as [Hc|Hc]; [now elim Hp|].
  now destruct (FirebaseHelper.candidates _ _).
Qed.

End Load.

Lemma load_drops_falsy_rejections_witness :
  let this := withHelpers tt [rejectsWithNothing; skips; rejectsWithNothing] in
  let r := load emptyBuiltin getBytes_none this ImageVector (Str "abc123") Undefined in
  outcome r = Returns (Fulfilled VNull) /\ recorded r = [].
Proof.
  destruct (load_drops_falsy_rejections unit emptyBuiltin getBytes_none
              (withHelpers tt [rejectsWithNothing; skips; rejectsWithNothing])
              ImageVector (Str "abc123") Undefined)
    as (Ho & Hr & _).
  - constructor; [right; exists VUndefined; split; reflexivity|].
    constructor; [left; reflexivity|].
    constructor; [right; exists VUndefined; split; reflexivity|].
    constructor.
  - split; [exact Ho | exact Hr].
Defined.

Lemma load_through_remote_helper_throws_witness :
  let this := addFirebaseStore (new tt) [ImageVector] bucket in
  let r := load emptyBuiltin getBytes_bucket this ImageVector (Str "abc123") Undefined in
  outcome r = Throws VTypeError /\ invoked r = [Builtin; Firebase].
Proof.
  refine (load_through_remote_helper_throws unit emptyBuiltin getBytes_bucket
            (addFirebaseStore (new tt) [ImageVector] bucket)
            ImageVector (Str "abc123") Undefined [Builtin] [] eq_refl _ _).
  - repeat constructor.
  - right. discriminate.
Defined.

(** *** [store] *)

Lemma registrations_no_capability (calls : list Call) :
  Forall FirebaseHelper.no_capability (registrations calls).
Proof.
  induction calls as [|c calls IH]; [constructor|].
  destruct c as [h prio|types r]; cbn [registrations flat_map app];
    [exact IH|].
  constructor; [split; reflexivity | exact IH].
Qed.

(** X14: On a coordinator configured through [addHelper] and [addFirebaseStore]
    alone, every [store] call is rejected with the 'No appropriate stores'
    error: nothing is uploaded, the built-in helper's [_store] is not
    called, and the cache is the one the coordinator was constructed
    with. *)
Theorem store_on_configured_coordinator_rejects
  (Cache : Type)
  (_store : Cache -> AssetType -> MaybeString -> Buffer -> Value ->
            Completion * Cache)
  (uploadBytes : StorageRef -> Buffer -> Settle)
  (defaultAssets : Cache) (calls : list Call)
  (assetType : AssetType) (dataFormat : MaybeString) (data : Buffer)
  (assetId : MaybeString) :
  store _store uploadBytes (fold_left configure calls (new defaultAssets))
    assetType dataFormat data assetId =
  {| promise := Rejected (VError "No appropriate stores");
     cache := defaultAssets;
     store_events := [] |}.
Proof.
  unfold store.
  rewrite FirebaseHelperProofs.store_none_eligible.
  - cbn [FirebaseHelper.store_returned FirebaseHelper.store_events].
    now rewrite configured_builtin.
  - rewrite configured_stores. cbn [new firebaseHelper FirebaseHelper.new
                                    FirebaseHelper.stores app].
    apply FirebaseHelperProofs.filter_all_false.
    eapply Forall_impl; [|apply registrations_no_capability].
    intros s [Hc Hu]. now apply FirebaseHelperProofs.eligible_without_capability.
Qed.

Section Store.

Variable Cache : Type.
Variable _store :
  Cache -> AssetType -> MaybeString -> Buffer -> Value -> Completion * Cache.
Variable uploadBytes : StorageRef -> Buffer -> Settle.
Variable this : t Cache.
Variable assetType : AssetType.
Variable dataFormat : MaybeString.
Variable data : Buffer.
Variable assetId : MaybeString.

Local Abbreviation format := (defaultFormat dataFormat assetType).
Local Abbreviation remote :=
  (FirebaseHelper.store uploadBytes (firebaseHelper this) assetType format
     data assetId).
Local Abbreviation stored :=
  (store _store uploadBytes this assetType dataFormat data assetId).
Local Abbreviation chosen :=
  (filter (FirebaseHelper.eligible assetType (FirebaseHelper.is_create assetId))
          (FirebaseHelper.stores (firebaseHelper this))).

(** X15: The promise of [store] is fulfilled only after both writes: the remote
    helper returned a promise fulfilled with the very value that [store]
    resolves with, exactly one upload was sent, that value has an [id], and
    the built-in helper's [_store], called with that id, completed and left
    the cache that [store] leaves. *)
Theorem store_resolves_only_after_both_writes (body : Value) :
  promise stored = Fulfilled body ->
  FirebaseHelper.store_returned remote = RetPromise (Fulfilled body) /\
  List.length (network_calls (store_events stored)) = 1%nat /\
  exists id v,
    get_prop body "id" = Some id /\
    _store (builtinHelper this) assetType format data id =
      (Normal v, cache stored).
Proof.
  unfold store.
  assert (Hev : forall b,
             FirebaseHelper.store_returned remote = RetPromise (Fulfilled b) ->
             List.length (network_calls (FirebaseHelper.store_events remote)) = 1%nat).
  { unfold FirebaseHelper.store.
    destruct (first _) as [s|]; [|discriminate].
    destruct (name assetType =? "Project"); [discriminate|].
    intros; reflexivity. }
  destruct (FirebaseHelper.store_returned remote) as [| |[b|e|]] eqn:Hr;
    cbn [promise]; try discriminate.
  destruct (get_prop b "id") as [id|] eqn:Hid; cbn [promise]; [|discriminate].
  destruct (_store _ _ _ _ _) as [[v|e] cache'] eqn:Hst; cbn [promise cache store_events];
    [|discriminate].
  intros [= <-]. split; [reflexivity|]. split; [now apply (Hev b)|].
  exists id, v. split; [exact Hid | exact Hst].
Qed.

(** X16: A Project asset cannot be stored: when a store is eligible the remote
    helper returns no promise, the coordinator's chain fails on it, and the
    promise of [store] is rejected with a TypeError; only the warning is
    issued and the cache is not touched. *)
Theorem store_project_rejects_with_type_error :
  name assetType = "Project" ->
  chosen <> [] ->
  promise stored = Rejected VTypeError /\
  cache stored = builtinHelper this /\
  store_events stored = [FirebaseHelper.warnProject].
Proof.
  intros Hp Hc. unfold store, FirebaseHelper.store.
  destruct chosen as [|s l]; [now elim Hc|].
  cbn [first]. rewrite Hp. cbn. repeat split.
Qed.

(** X17: A write that the backend refuses is reported as it is: when the upload
    to the first eligible store is rejected, the promise of [store] is
    rejected with the same reason, after that one upload, and the cache is
    not touched. *)
Theorem store_forwards_write_failure
  (s : FirebaseHelper.StoreRecord) (rest : list FirebaseHelper.StoreRecord)
  (reason : Value) :
  name assetType <> "Project" ->
  chosen = s :: rest ->
  uploadBytes (ref (FirebaseHelper.storageReference s) assetId) data =
    Rejected reason ->
  promise stored = Rejected reason /\
  cache stored = builtinHelper this /\
  store_events stored =
    [UploadBytes (ref (FirebaseHelper.storageReference s) assetId) data].
Proof.
  intros Hp Hc Hu. unfold store, FirebaseHelper.store.
  rewrite Hc. cbn [first].
  apply String.eqb_neq in Hp; rewrite Hp.
  cbn [FirebaseHelper.store_returned FirebaseHelper.store_events].
  rewrite Hu. repeat split.
Qed.

End Store.

Lemma store_resolves_only_after_both_writes_witness :
  let this := withStores (@nil (Value * Buffer)) [readWrite] in
  FirebaseHelper.store_returned
    (FirebaseHelper.store uploadBytes_ok (firebaseHelper this) ImageVector
       (Str "svg") png (Str "abc123")) = RetPromise (Fulfilled metadata) /\
  get_prop metadata "id" = Some (VStr "abc123").
Proof.
  destruct (store_resolves_only_after_both_writes (list (Value * Buffer))
              _store_ok uploadBytes_ok (withStores [] [readWrite]) ImageVector
              Undefined png (Str "abc123") metadata eq_refl)
    as (Hr & _ & _).
  split; [exact Hr | reflexivity].
Defined.

Lemma store_project_rejects_with_type_error_witness :
  let this := withStores [] [readWrite] in
  promise (store _store_ok uploadBytes_ok this Project Undefined png (Str "1")) =
    Rejected VTypeError.
Proof.
  refine (proj1 (store_project_rejects_with_type_error (list (Value * Buffer))
                   _store_ok uploadBytes_ok (withStores [] [readWrite]) Project
                   Undefined png (Str "1") eq_refl _)).
  discriminate.
Defined.

Lemma store_forwards_write_failure_witness :
  let this := withStores [] [updateOnly; readWrite] in
  let r := store _store_ok uploadBytes_forbidden this ImageVector Undefined png
             (Str "abc123") in
  promise r = Rejected (VNum 403) /\ cache r = [].
Proof.
  destruct (store_forwards_write_failure (list (Value * Buffer))
              _store_ok uploadBytes_forbidden
              (withStores [] [updateOnly; readWrite]) ImageVector
              Undefined png (Str "abc123") updateOnly [readWrite] (VNum 403))
    as (Hp & Hc & _).
  - discriminate.
  - reflexivity.
  - reflexivity.
  - split; [exact Hp | exact Hc].
Defined.

(** *** The two built-in priorities *)

Lemma descending_head_is_highest (l' : list HelperEntry) (a : HelperEntry)
  (l : list HelperEntry) :
  descending l' ->
  Permutation l' (a :: l) ->
  (forall e, In e l -> (priority e < priority a)%Z) ->
  exists tl, l' = a :: tl /\ Permutation tl l.
Proof.
  intros Hd Hp Hlt. destruct l' as [|x tl].
  - apply Permutation_length in Hp; discriminate.
  - assert (Hx : In x (a :: l)) by (eapply Permutation_in; [exact Hp | now left]).
    destruct Hx as [<-|Hx].
    + exists tl. split; [reflexivity | now apply Permutation_cons_inv in Hp].
    + exfalso. pose proof (Hlt x Hx) as Hxa.
      assert (Ha : In a (x :: tl))
        by (eapply Permutation_in; [symmetry; exact Hp | now left]).
      destruct Ha as [->|Ha]; [lia|].
      inversion Hd as [|? ? _ Hall]; subst.
      rewrite Forall_forall in Hall. specialize (Hall a Ha). simpl in Hall. lia.
Qed.

Lemma descending_last_is_lowest (l' : list HelperEntry) (z : HelperEntry) :
  forall l : list HelperEntry,
    descending l' ->
    Permutation l' (l ++ [z]) ->
    (forall e, In e l -> (priority z < priority e)%Z) ->
    exists init, l' = init ++ [z] /\ Permutation init l.
Proof.
  induction l' as [|x tl IH]; intros l Hd Hp Hlt.
  - apply Permutation_length in Hp. rewrite length_app in Hp.
    simpl in Hp; lia.
  - inversion Hd as [|? ? Hd' Hall]; subst.
    assert (Hx : In x (l ++ [z]))
      by (eapply Permutation_in; [exact Hp | now left]).
    apply in_app_or in Hx. destruct Hx as [Hx|[<-|[]]].
    + apply in_split in Hx. destruct Hx as (l1 & l2 & ->).
      assert (Hp' : Permutation tl ((l1 ++ l2) ++ [z])).
      { apply Permutation_cons_inv with (a := x).
        rewrite Hp, <- !app_assoc. cbn [app].
        symmetry. apply Permutation_middle. }
      destruct (IH (l1 ++ l2) Hd' Hp') as (init & -> & Hi).
      { intros e He. apply Hlt. apply in_app_or in He.
        apply in_or_app. destruct He; [now left | right; now right]. }
      exists (x :: init). split; [reflexivity|].
      rewrite Hi. apply Permutation_middle.
    + assert (Hp' : Permutation tl l).
      { apply Permutation_cons_inv with (a := z).
        rewrite Hp. symmetry. rewrite Permutation_app_comm. reflexivity. }
      destruct tl as [|y tl'].
      * exists []. split; [reflexivity | exact Hp'].
      * exfalso.
        assert (Hy : In y l) by (eapply Permutation_in; [exact Hp' | now left]).
        specialize (Hlt y Hy).
        inversion Hall as [|? ? Hyz _]; subst. simpl in Hyz. lia.
Qed.

(** X18: The built-in helper, at priority 100, and the remote helper, at -100,
    frame the helpers that are added: as long as every [addHelper] call
    gives a priority strictly between the two (the default 0 is one), the
    built-in helper is the first of the list, the remote helper the last,
    and the added helpers lie between them; every [load] then invokes the
    built-in helper first. *)
Theorem builtin_first_and_remote_last
  (Cache : Type)
  (builtin_load : Cache -> AssetType -> MaybeString -> MaybeString -> Loading)
  (getBytes : StorageRef -> Settle)
  (defaultAssets : Cache) (calls : list Call)
  (assetType : AssetType) (assetId dataFormat : MaybeString) :
  Forall (fun e => (-100 < priority e < 100)%Z) (added calls) ->
  let this := fold_left configure calls (new defaultAssets) in
  (exists between,
      Permutation between (added calls) /\
      _helpers this =
        {| helper := Builtin; priority := 100 |} :: between ++
        [ {| helper := Firebase; priority := -100 |} ]) /\
  exists rest,
    invoked (load builtin_load getBytes this assetType assetId dataFormat) =
    Builtin :: rest.
Proof.
  intros Hrange. cbv zeta.
  pose proof (configured_helpers calls (new defaultAssets)) as Hp.
  pose proof (configured_descending calls (new defaultAssets)
                (new_descending defaultAssets)) as Hd.
  cbn [new _helpers app] in Hp.
  set (B := {| helper := Builtin; priority := 100 |}) in *.
  set (F := {| helper := Firebase; priority := -100 |}) in *.
  rewrite Forall_forall in Hrange.
  destruct (descending_head_is_highest _ B (F :: added calls) Hd Hp)
    as (tl & Htl & Hptl).
  { intros e [<-|He]; [simpl; lia | apply Hrange in He; simpl; lia]. }
  assert (Hdtl : descending tl).
  { rewrite Htl in Hd. now inversion Hd. }
  assert (Hptl' : Permutation tl (added calls ++ [F])).
  { rewrite Hptl. rewrite Permutation_app_comm. reflexivity. }
  destruct (descending_last_is_lowest tl F (added calls) Hdtl Hptl')
    as (between & Hbetween & Hpb).
  { intros e He. apply Hrange in He. simpl; lia. }
  assert (Hlist : _helpers (fold_left configure calls (new defaultAssets)) =
                  B :: between ++ [F]) by (now rewrite Htl, Hbetween).
  split.
  - exists between. split; [exact Hpb | exact Hlist].
  - unfold load. rewrite Hlist. cbn [map helper B tryNextHelper].
    destruct (helper_load _ _ _ Builtin _ _ _) as [[| |[v|reason|]]| |thrown];
      eexists; reflexivity.
Qed.

Lemma builtin_first_and_remote_last_witness :
  let calls := [AddHelper skips None;
                AddFirebaseStore [ImageVector] bucket;
                AddHelper rejects403 (Some 50%Z)] in
  Forall (fun e => (-100 < priority e < 100)%Z) (added calls) /\
  exists rest,
    invoked (load emptyBuiltin getBytes_bucket
               (fold_left configure calls (new tt))
               ImageVector (Str "abc123") Undefined) = Builtin :: rest.
Proof.
  assert (H : Forall (fun e => (-100 < priority e < 100)%Z)
                (added [AddHelper skips None;
                        AddFirebaseStore [ImageVector] bucket;
                        AddHelper rejects403 (Some 50%Z)])).
  { repeat constructor. }
  split; [exact H|].
  exact (proj2 (builtin_first_and_remote_last unit emptyBuiltin getBytes_bucket
                  tt _ ImageVector (Str "abc123") Undefined H)).
Defined.

End ScratchStorageChains.

(* ===================================================================== *)
(** ** The order in which helpers are asked *)
(* ===================================================================== *)

Module ScratchStorageOrder.

Import ScratchStorage Fixtures ScratchStorageProofs ScratchStorageChains.

(** The helper at the head of the walk is invoked, whatever it does. *)
Lemma walk_invokes_head
  (Cache : Type)
  (builtin_load : Cache -> AssetType -> MaybeString -> MaybeString -> Loading)
  (getBytes : StorageRef -> Settle) (this : t Cache)
  (assetType : AssetType) (assetId dataFormat : MaybeString)
  (h : Helper) (post : list Helper) (errors : list Value) (err : Value) :
  exists rest,
    invoked (tryNextHelper builtin_load getBytes this assetType assetId
               dataFormat (h :: post) errors err) = h :: rest.
Proof.
  cbn [tryNextHelper].
  destruct (helper_load _ _ _ h _ _ _) as [[| |[v|reason|]]| |thrown];
    eexists; reflexivity.
Qed.

(** C7, as stated, fails on 'strictly': two helpers added with the default
    priority stand side by side in the list with the same priority 0, and
    [load] asks both, one after the other. *)
Lemma helpers_strictly_descending_counterexample :
  let this := addHelper (addHelper (new tt) skips None) rejects403 None in
  map priority (_helpers this) = [100; 0; 0; -100]%Z /\
  ~ strictly_descending (_helpers this) /\
  invoked (load emptyBuiltin getBytes_none this ImageVector (Str "abc123")
             Undefined) = [Builtin; skips; rejects403; Firebase].
Proof.
  cbv zeta. split; [reflexivity|]. split; [|reflexivity].
  unfold strictly_descending. cbn. intros H.
  inversion H as [|? ? H1 _]; subst.
  inversion H1 as [|? ? _ H2]; subst.
  inversion H2 as [|? ? H3 _]; subst.
  cbn in H3. lia.
Qed.

(** C7, amended: after any sequence of [addHelper] (and [addFirebaseStore])
    calls on a new coordinator the helper list holds the two helpers of the
    constructor and one entry per [addHelper] call, in non-increasing order
    of priority (equal priorities are allowed).  [load] asks the helpers in
    the order of that list: it invokes an initial segment of it, and a
    helper is invoked exactly when every helper before it returned the null
    sentinel or a promise that rejected, so the first one always is.  A
    helper whose promise resolves is the last one invoked: no helper after
    it in the list, of lower or equal priority, is. *)
Theorem helpers_sorted_and_queried_in_order
  (Cache : Type)
  (builtin_load : Cache -> AssetType -> MaybeString -> MaybeString -> Loading)
  (getBytes : StorageRef -> Settle)
  (defaultAssets : Cache) (calls : list Call)
  (assetType : AssetType) (assetId dataFormat : MaybeString) :
  let this := fold_left configure calls (new defaultAssets) in
  let r := load builtin_load getBytes this assetType assetId dataFormat in
  Permutation (_helpers this) (_helpers (new defaultAssets) ++ added calls) /\
  descending (_helpers this) /\
  (exists rest, map helper (_helpers this) = invoked r ++ rest) /\
  (forall pre h post,
      map helper (_helpers this) = pre ++ h :: post ->
      ((List.length pre < List.length (invoked r))%nat <->
       Forall (fun x =>
                 advances (helper_load builtin_load getBytes this x assetType
                             assetId (defaultFormat dataFormat assetType)) = true)
              pre)) /\
  (forall pre h post v,
      map helper (_helpers this) = pre ++ h :: post ->
      (List.length pre < List.length (invoked r))%nat ->
      helper_load builtin_load getBytes this h assetType assetId
        (defaultFormat dataFormat assetType) = RetPromise (Fulfilled v) ->
      invoked r = pre ++ [h] /\
      Forall (fun e => (priority e <=
                        priority (nth (List.length pre) (_helpers this) e))%Z)
             (skipn (S (List.length pre)) (_helpers this))).
Proof.
  cbv zeta.
  pose proof (configured_descending calls (new defaultAssets)
                (new_descending defaultAssets)) as Hdesc.
  pose proof (configured_helpers calls (new defaultAssets)) as Hperm.
  set (this := fold_left configure calls (new defaultAssets)) in *.
  split; [exact Hperm|]. split; [exact Hdesc|]. split; [|split].
  - apply walk_invoked_prefix.
  - intros pre h post Hhs. unfold load. rewrite Hhs. split.
    + apply walk_reaches.
    + intros Hpre.
      destruct (walk_past Cache builtin_load getBytes this assetType assetId
                  (defaultFormat dataFormat assetType) pre (h :: post)
                  [] VUndefined Hpre) as (Hi & _).
      cbv zeta in Hi. rewrite Hi.
      destruct (walk_invokes_head Cache builtin_load getBytes this assetType
                  assetId (defaultFormat dataFormat assetType) h post
                  (track [] VUndefined ++
                   rejections
                     (map (fun x => helper_load builtin_load getBytes this x
                                      assetType assetId
                                      (defaultFormat dataFormat assetType)) pre))
                  VUndefined) as [rest Hrest].
      rewrite Hrest, length_app. simpl. lia.
  - intros pre h post v Hhs Hlen Hh. split.
    + eapply load_stops_at_success; eassumption.
    + assert (Hl : List.length pre = List.length (firstn (List.length pre) (_helpers this))).
      { rewrite length_firstn. apply (f_equal (@List.length _)) in Hhs.
        rewrite length_map, length_app in Hhs; simpl in Hhs. lia. }
      revert Hdesc. unfold descending.
      rewrite <- (firstn_skipn (List.length pre) (_helpers this)) at 1.
      destruct (skipn (List.length pre) (_helpers this)) as [|e tl] eqn:Hsk.
      * apply (f_equal (@List.length _)) in Hsk, Hhs.
        rewrite length_skipn in Hsk.
        rewrite length_map, length_app in Hhs; simpl in *. lia.
      * intros Hdesc.
        assert (Htl : skipn (S (List.length pre)) (_helpers this) = tl).
        { replace (S (List.length pre)) with (1 + List.length pre)%nat by lia.
          rewrite <- skipn_skipn, Hsk. reflexivity. }
        rewrite Htl.
        assert (Hnth : forall d, nth (List.length pre) (_helpers this) d = e).
        { intros d.
          rewrite <- (firstn_skipn (List.length pre) (_helpers this)), Hsk.
          rewrite app_nth2 by lia.
          rewrite <- Hl, Nat.sub_diag. reflexivity. }
        assert (Hs : StronglySorted (fun a b => (priority b <= priority a)%Z) (e :: tl)).
        { clear - Hdesc.
          induction (firstn (List.length pre) (_helpers this)) as [|x l IH];
            [exact Hdesc|].
          simpl in Hdesc. inversion Hdesc; subst. now apply IH. }
        inversion Hs as [|? ? _ Hall]; subst.
        eapply Forall_impl; [|exact Hall].
        intros b Hb. rewrite Hnth. exact Hb.
Qed.

End ScratchStorageOrder.
